(** * Verification of the task/file processing coordinator of multimedia-review

    Shallow embedding of
    - the Redis lease locks of [app/services/queue_service.py]
      ([QueueService.task_lock], [QueueService.file_lock]);
    - the task service of [app/services/task_service.py]
      ([start_task], [update_task_progress], [complete_task], [cancel_task]);
    - the file service of [app/services/file_service.py]
      ([update_file_status], [update_file_violation_count]);
    - the worker of [app/workers/review_worker.py]
      ([process_review_file], [_update_task_progress] and the type handlers).

    Database tables are lists of rows; a query [filter(...).count()] is a
    [length (filter ...)].  The Redis cache is a finite map from keys to a
    value with its absolute expiry time (in seconds). *)

From Stdlib Require Import ZArith Lia.
From Stdlib Require Import Floats.SpecFloat.
From stdpp Require Import base gmap strings list pretty.

Open Scope Z_scope.

(* ===================================================================== *)
(** ** Redis lease locks ([QueueService.task_lock] / [file_lock]) *)
(* ===================================================================== *)

Module Lease.

(** The cache Redis: key -> (value, expiry).  A key whose expiry is not in
    the future no longer exists for Redis. *)
Abbreviation redis := (gmap string (string * Z)).

(** [GET key] (and [EXISTS key]) at time [now]. *)
Definition redis_get (r : redis) (k : string) (now : Z) : option string :=
  match r !! k with
  | Some (v, e) => if Z.ltb now e then Some v else None
  | None => None
  end.

(** [SET key value NX EX ttl]: sets only when the key does not exist;
    returns whether it was set. *)
Definition redis_set_nx_ex (r : redis) (k v : string) (ttl now : Z) : redis * bool :=
  match redis_get r k now with
  | Some _ => (r, false)
  | None => (<[k := (v, now + ttl)]> r, true)
  end.

(** The Lua release script of both lock managers:
    [if redis.call("get", KEYS[1]) == ARGV[1] then return redis.call("del", KEYS[1]) else return 0 end] *)
Definition release_script (r : redis) (k v : string) (now : Z) : redis * Z :=
  match redis_get r k now with
  | Some v' => if String.eqb v' v then (delete k r, 1) else (r, 0)
  | None => (r, 0)
  end.

(** [is_task_processing] / [is_file_processing]: [exists(lock_key) > 0]. *)
Definition is_held (r : redis) (k : string) (now : Z) : bool :=
  match redis_get r k now with Some _ => true | None => false end.

Definition task_lock_key (task_id : string) : string := "task_lock:" +:+ task_id.
Definition file_lock_key (file_id : string) : string := "file_lock:" +:+ file_id.

(** Default lease times of [task_lock] and [file_lock]. *)
Definition task_lock_timeout : Z := 3600.
Definition file_lock_timeout : Z := 1800.

(** One call against the lease store: an acquire ([set ... nx=True, ex=timeout])
    or a release (the Lua script), with its boolean outcome. *)
Inductive lock_op :=
  | Acquire (k tok : string) (ttl : Z)
  | Release (k tok : string).

Definition step (r : redis) (now : Z) (op : lock_op) : redis * bool :=
  match op with
  | Acquire k tok ttl => redis_set_nx_ex r k tok ttl now
  | Release k tok => let '(r', n) := release_script r k tok now in (r', Z.eqb n 1)
  end.

(** A history of calls, most recent first, each with the time it ran. *)
Fixpoint exec (r0 : redis) (evs : list (Z * lock_op)) : redis * list (Z * lock_op * bool) :=
  match evs with
  | [] => (r0, [])
  | (t, op) :: rest =>
      let '(r, log) := exec r0 rest in
      let '(r', b) := step r t op in
      (r', (t, op, b) :: log)
  end.

(** Times are non-decreasing along the history. *)
Fixpoint times_ok (evs : list (Z * lock_op)) : bool :=
  match evs with
  | (t, _) :: (((t', _) :: _) as rest) => Z.leb t' t && times_ok rest
  | _ => true
  end.

(** [now] is not earlier than the last call. *)
Definition after (evs : list (Z * lock_op)) (now : Z) : bool :=
  match evs with
  | (t, _) :: _ => Z.leb t now
  | [] => true
  end.

(** [holdsb log k tok now]: the owner [tok] did a successful acquire of [k]
    whose lease has not expired at [now], and has not successfully released
    [k] since.  Defined from the history of calls only. *)
Fixpoint holdsb (log : list (Z * lock_op * bool)) (k tok : string) (now : Z) : bool :=
  match log with
  | [] => false
  | (t0, Acquire k' tok' ttl, true) :: rest =>
      (String.eqb k' k && String.eqb tok' tok && Z.ltb now (t0 + ttl))
      || holdsb rest k tok now
  | (_, Release k' tok', true) :: rest =>
      negb (String.eqb k' k && String.eqb tok' tok) && holdsb rest k tok now
  | _ :: rest => holdsb rest k tok now
  end.

End Lease.

(* ===================================================================== *)
(** ** Python [int((a / b) * 100)] on binary64 floats *)
(* ===================================================================== *)

Module PyFloat.

(** Python floats are IEEE binary64: 53 bits of precision, emax 1024. *)
Definition prec : Z := 53.
Definition emax : Z := 1024.

(** [float(n)] (round to nearest even). *)
Definition of_int (n : Z) : spec_float := binary_normalize prec emax n 0 false.

(** [a / b] on two ints, both of which are exactly representable. *)
Definition truediv (a b : Z) : spec_float := SFdiv prec emax (of_int a) (of_int b).

Definition mul (x y : spec_float) : spec_float := SFmul prec emax x y.

(** [int(x)]: truncation toward zero.  Python raises on inf and nan; those
    cannot come out of [truediv] with a positive divisor, and are sent to 0. *)
Definition to_int (x : spec_float) : Z :=
  match x with
  | S754_zero _ => 0
  | S754_finite s m e =>
      let v := if Z.leb 0 e then Z.pos m * 2 ^ e else Z.pos m / 2 ^ (- e) in
      if s then - v else v
  | _ => 0
  end.

(** [int((processed_files / total_files) * 100)] *)
Definition percent (processed total : Z) : Z :=
  to_int (mul (truediv processed total) (of_int 100)).

End PyFloat.

(* ===================================================================== *)
(** ** Data model ([app/models/task.py], [file.py], [result.py]) *)
(* ===================================================================== *)

Module TaskStatus.
Inductive t := PENDING | PROCESSING | COMPLETED | FAILED | CANCELLED.
#[global] Instance eq_dec : EqDecision t.
Proof. solve_decision. Defined.
End TaskStatus.

Module FileStatus.
Inductive t := PENDING | UPLOADING | PROCESSING | COMPLETED | FAILED | CANCELLED.
#[global] Instance eq_dec : EqDecision t.
Proof. solve_decision. Defined.
End FileStatus.

Module FileType.
Inductive t := DOCUMENT | IMAGE | VIDEO | TEXT.
End FileType.

Module ViolationResult.
Inductive t := COMPLIANT | NON_COMPLIANT | UNCERTAIN.
End ViolationResult.

Module Model.

Import Lease.

(** The columns of [ReviewTask] the coordinator reads or writes. *)
Record ReviewTask := mkTask {
  task_id : string;
  task_status : TaskStatus.t;
  task_progress : Z;
  task_error_message : option string;
  task_total_files : Z;
  task_processed_files : Z;
  task_violation_count : Z;
  task_started_at : option Z;
  task_completed_at : option Z;
  task_updated_at : option Z
}.

(** The columns of [ReviewFile] the coordinator reads or writes. *)
Record ReviewFile := mkFile {
  file_id : string;
  file_task_id : string;
  file_type : FileType.t;
  file_status : FileStatus.t;
  file_progress : Z;
  file_violation_count : Z;
  file_error_message : option string;
  file_processed_at : option Z;
  file_updated_at : option Z
}.

(** A [ReviewResult] row: owning file and verdict. *)
Record ReviewResult := mkResult {
  result_file_id : string;
  violation_result : ViolationResult.t
}.

(** The database, the cache Redis and the clock ([datetime.utcnow()]). *)
Record World := mkWorld {
  tasks : list ReviewTask;
  files : list ReviewFile;
  results : list ReviewResult;
  cache : redis;
  now : Z
}.

Definition set_tasks (ts : list ReviewTask) (w : World) : World :=
  mkWorld ts (files w) (results w) (cache w) (now w).
Definition set_files (fs : list ReviewFile) (w : World) : World :=
  mkWorld (tasks w) fs (results w) (cache w) (now w).
Definition set_results (rs : list ReviewResult) (w : World) : World :=
  mkWorld (tasks w) (files w) rs (cache w) (now w).
Definition set_cache (r : redis) (w : World) : World :=
  mkWorld (tasks w) (files w) (results w) r (now w).
Definition set_now (n : Z) (w : World) : World :=
  mkWorld (tasks w) (files w) (results w) (cache w) n.

(** Exceptions raised by the services ([app/utils/response.py]) and Python. *)
Inductive Exn :=
  | NotFoundError (msg : string)
  | BusinessError (msg : string)
  | RuntimeError (msg : string)
  | ValueError (msg : string).

Definition exn_msg (e : Exn) : string :=
  match e with
  | NotFoundError m | BusinessError m | RuntimeError m | ValueError m => m
  end.

Inductive Res (A : Type) := Ok (a : A) | Raise (e : Exn).
Arguments Ok {A} a.
Arguments Raise {A} e.

(** State and exceptions: a raised exception keeps the state reached so far
    (rows already committed stay committed). *)
Definition M (A : Type) := World -> World * Res A.

#[export] Instance M_ret : MRet M := fun A a w => (w, Ok a).
#[export] Instance M_bind : MBind M := fun A B k m w =>
  match m w with
  | (w', Ok a) => k a w'
  | (w', Raise e) => (w', Raise e)
  end.

Definition raise {A} (e : Exn) : M A := fun w => (w, Raise e).
Definition get : M World := fun w => (w, Ok w).
Definition modify (f : World -> World) : M unit := fun w => (f w, Ok tt).

(** [try: m except Exception as e: h e] *)
Definition try_except {A} (m : M A) (h : Exn -> M A) : M A :=
  fun w => match m w with
           | (w', Raise e) => h e w'
           | res => res
           end.

End Model.

(** Row setters (SQLAlchemy attribute assignments). *)
Module Rows.
Import Model.

Definition set_task_status s (t : ReviewTask) : ReviewTask :=
  mkTask (task_id t) s (task_progress t) (task_error_message t) (task_total_files t)
    (task_processed_files t) (task_violation_count t) (task_started_at t)
    (task_completed_at t) (task_updated_at t).
Definition set_task_progress p (t : ReviewTask) : ReviewTask :=
  mkTask (task_id t) (task_status t) p (task_error_message t) (task_total_files t)
    (task_processed_files t) (task_violation_count t) (task_started_at t)
    (task_completed_at t) (task_updated_at t).
Definition set_task_error_message m (t : ReviewTask) : ReviewTask :=
  mkTask (task_id t) (task_status t) (task_progress t) m (task_total_files t)
    (task_processed_files t) (task_violation_count t) (task_started_at t)
    (task_completed_at t) (task_updated_at t).
Definition set_task_processed_files n (t : ReviewTask) : ReviewTask :=
  mkTask (task_id t) (task_status t) (task_progress t) (task_error_message t)
    (task_total_files t) n (task_violation_count t) (task_started_at t)
    (task_completed_at t) (task_updated_at t).
Definition set_task_violation_count n (t : ReviewTask) : ReviewTask :=
  mkTask (task_id t) (task_status t) (task_progress t) (task_error_message t)
    (task_total_files t) (task_processed_files t) n (task_started_at t)
    (task_completed_at t) (task_updated_at t).
Definition set_task_completed_at c (t : ReviewTask) : ReviewTask :=
  mkTask (task_id t) (task_status t) (task_progress t) (task_error_message t)
    (task_total_files t) (task_processed_files t) (task_violation_count t)
    (task_started_at t) c (task_updated_at t).
Definition set_task_updated_at u (t : ReviewTask) : ReviewTask :=
  mkTask (task_id t) (task_status t) (task_progress t) (task_error_message t)
    (task_total_files t) (task_processed_files t) (task_violation_count t)
    (task_started_at t) (task_completed_at t) u.

Definition set_file_status s (f : ReviewFile) : ReviewFile :=
  mkFile (file_id f) (file_task_id f) (file_type f) s (file_progress f)
    (file_violation_count f) (file_error_message f) (file_processed_at f) (file_updated_at f).
Definition set_file_progress p (f : ReviewFile) : ReviewFile :=
  mkFile (file_id f) (file_task_id f) (file_type f) (file_status f) p
    (file_violation_count f) (file_error_message f) (file_processed_at f) (file_updated_at f).
Definition set_file_violation_count n (f : ReviewFile) : ReviewFile :=
  mkFile (file_id f) (file_task_id f) (file_type f) (file_status f) (file_progress f)
    n (file_error_message f) (file_processed_at f) (file_updated_at f).
Definition set_file_error_message m (f : ReviewFile) : ReviewFile :=
  mkFile (file_id f) (file_task_id f) (file_type f) (file_status f) (file_progress f)
    (file_violation_count f) m (file_processed_at f) (file_updated_at f).
Definition set_file_processed_at a (f : ReviewFile) : ReviewFile :=
  mkFile (file_id f) (file_task_id f) (file_type f) (file_status f) (file_progress f)
    (file_violation_count f) (file_error_message f) a (file_updated_at f).
Definition set_file_updated_at u (f : ReviewFile) : ReviewFile :=
  mkFile (file_id f) (file_task_id f) (file_type f) (file_status f) (file_progress f)
    (file_violation_count f) (file_error_message f) (file_processed_at f) u.

(** [session.commit()] of one modified row: the row with that id is replaced. *)
Definition put_task (t : ReviewTask) : M unit :=
  modify (fun w => set_tasks (map (fun t0 => if String.eqb (task_id t0) (task_id t) then t else t0) (tasks w)) w).
Definition put_file (f : ReviewFile) : M unit :=
  modify (fun w => set_files (map (fun f0 => if String.eqb (file_id f0) (file_id f) then f else f0) (files w)) w).

(** [db.query(ReviewTask).filter(ReviewTask.id == task_id).first()] *)
Definition task_row (w : World) (tid : string) : option ReviewTask :=
  List.find (fun t => String.eqb (task_id t) tid) (tasks w).

(** [db.query(ReviewFile).filter(ReviewFile.id == file_id).first()] *)
Definition file_row (w : World) (fid : string) : option ReviewFile :=
  List.find (fun f => String.eqb (file_id f) fid) (files w).

(** [db.query(ReviewFile).filter(ReviewFile.task_id == task_id, P).count()] *)
Definition count_files (w : World) (tid : string) (P : ReviewFile -> bool) : Z :=
  Z.of_nat (length (List.filter (fun f => String.eqb (file_task_id f) tid && P f) (files w))).

(** Files of the task whose [violation_count > 0]. *)
Definition violating_files (w : World) (tid : string) : Z :=
  count_files w tid (fun f => Z.ltb 0 (file_violation_count f)).

End Rows.

(* ===================================================================== *)
(** ** [app/models/task.py]: [ReviewTask.update_progress] *)
(* ===================================================================== *)

Module ReviewTaskM.
Import Model Rows.

(** [if self.total_files > 0: self.progress = int((self.processed_files / self.total_files) * 100)
     else: self.progress = 0] *)
Definition update_progress (t : ReviewTask) : ReviewTask :=
  if Z.ltb 0 (task_total_files t)
  then set_task_progress (PyFloat.percent (task_processed_files t) (task_total_files t)) t
  else set_task_progress 0 t.

End ReviewTaskM.

(* ===================================================================== *)
(** ** [app/services/task_service.py] *)
(* ===================================================================== *)

Module TaskService.
Import Model Rows.

Definition get_task_by_id (tid : string) : M ReviewTask :=
  w ← get;
  match task_row w tid with
  | Some t => mret t
  | None => raise (NotFoundError ("task not found: " +:+ tid))
  end.

Definition start_task (tid : string) : M bool :=
  task ← get_task_by_id tid;
  if bool_decide (task_status task ∉ [TaskStatus.PENDING; TaskStatus.CANCELLED;
                                      TaskStatus.FAILED; TaskStatus.COMPLETED])
  then raise (BusinessError "task status does not allow start")
  else
    w ← get;
    let file_count := count_files w tid (fun _ => true) in
    if Z.eqb file_count 0 then raise (BusinessError "task has no files")
    else
      (if bool_decide (task_status task ∈ [TaskStatus.CANCELLED; TaskStatus.FAILED;
                                           TaskStatus.COMPLETED])
       then modify (fun w => set_files
              (map (fun f => if String.eqb (file_task_id f) tid
                             then set_file_processed_at None (set_file_error_message None
                                    (set_file_progress 0 (set_file_status FileStatus.PENDING f)))
                             else f) (files w)) w)
       else mret tt) ;;
      put_task (mkTask (task_id task) TaskStatus.PROCESSING 0 None file_count 0 0
                  (Some (now w)) None (task_updated_at task)) ;;
      mret true.

Definition update_task_progress (tid : string) (processed_files : option Z) : M ReviewTask :=
  task ← get_task_by_id tid;
  let task := match processed_files with
              | Some n => set_task_processed_files n task
              | None => task
              end in
  let task := ReviewTaskM.update_progress task in
  w ← get;
  let task := set_task_updated_at (Some (now w))
                (set_task_violation_count (violating_files w tid) task) in
  put_task task ;;
  mret task.

Definition complete_task (tid : string) (success : bool) (error_message : option string)
  : M ReviewTask :=
  task ← get_task_by_id tid;
  let task := if success then set_task_status TaskStatus.COMPLETED task
              else set_task_error_message error_message (set_task_status TaskStatus.FAILED task) in
  w ← get;
  let task := ReviewTaskM.update_progress (set_task_completed_at (Some (now w)) task) in
  let task := set_task_violation_count (violating_files w tid) task in
  put_task task ;;
  mret task.

Definition cancel_task (tid : string) : M ReviewTask :=
  task ← get_task_by_id tid;
  if bool_decide (task_status task ∉ [TaskStatus.PENDING; TaskStatus.PROCESSING])
  then raise (BusinessError "task status does not allow cancel")
  else
    w ← get;
    let task := set_task_updated_at (Some (now w)) (set_task_status TaskStatus.CANCELLED task) in
    put_task task ;;
    modify (fun w => set_files
      (map (fun f => if String.eqb (file_task_id f) tid
                        && bool_decide (file_status f ∈ [FileStatus.PENDING; FileStatus.PROCESSING])
                     then set_file_status FileStatus.CANCELLED f else f) (files w)) w) ;;
    mret task.

(** The ids of the task's files: [db.query(ReviewFile.id).filter(ReviewFile.task_id == task_id)]. *)
Definition task_file_ids (w : World) (tid : string) : list string :=
  map file_id (List.filter (fun f => String.eqb (file_task_id f) tid) (files w)).

(** [recheck_task]: task attributes reset, the files reset by a bulk update,
    the results of the task's files deleted by a bulk delete, one commit. *)
Definition recheck_task (tid : string) : M bool :=
  task ← get_task_by_id tid;
  if bool_decide (task_status task ∉ [TaskStatus.COMPLETED; TaskStatus.FAILED])
  then raise (BusinessError "task status does not allow recheck")
  else
    w ← get;
    let task := mkTask (task_id task) TaskStatus.PENDING 0 None (task_total_files task) 0 0
                  None None (Some (now w)) in
    put_task task ;;
    modify (fun w => set_files
      (map (fun f => if String.eqb (file_task_id f) tid
                     then set_file_processed_at None (set_file_error_message None
                            (set_file_progress 0 (set_file_status FileStatus.PENDING f)))
                     else f) (files w)) w) ;;
    let ids := task_file_ids w tid in
    modify (fun w => set_results
      (List.filter (fun r => negb (existsb (String.eqb (result_file_id r)) ids)) (results w)) w) ;;
    mret true.

(** [delete_task]: [db.delete(task)]; the relationships [ReviewTask.files] and
    [ReviewFile.results] are [cascade="all, delete-orphan"], so the task's
    files and their results go with it (ids are primary keys). *)
Definition delete_task (tid : string) : M bool :=
  task ← get_task_by_id tid;
  if bool_decide (task_status task = TaskStatus.PROCESSING)
  then raise (BusinessError "task is processing, cannot delete")
  else
    w ← get;
    let ids := task_file_ids w tid in
    modify (fun w => set_results
      (List.filter (fun r => negb (existsb (String.eqb (result_file_id r)) ids)) (results w)) w) ;;
    modify (fun w => set_files (List.filter (fun f => negb (String.eqb (file_task_id f) tid)) (files w)) w) ;;
    modify (fun w => set_tasks (List.filter (fun t => negb (String.eqb (task_id t) tid)) (tasks w)) w) ;;
    mret true.

(** [get_task_files]: the task must exist; [order_by(created_at.asc())] is
    the order of insertion, which is the order of the [files] table. *)
Definition get_task_files (tid : string) (status : option FileStatus.t) : M (list ReviewFile) :=
  get_task_by_id tid ;;
  w ← get;
  mret (List.filter (fun f => String.eqb (file_task_id f) tid &&
                              match status with
                              | Some s => bool_decide (file_status f = s)
                              | None => true
                              end) (files w)).

(** The members of [FileStatus], in declaration order. *)
Definition all_file_statuses : list FileStatus.t :=
  [FileStatus.PENDING; FileStatus.UPLOADING; FileStatus.PROCESSING;
   FileStatus.COMPLETED; FileStatus.FAILED; FileStatus.CANCELLED].

(** The parts of [get_task_statistics] computed from the columns modelled here. *)
Record TaskStatistics := mkStatistics {
  file_status_counts : list (FileStatus.t * Z);
  processing_duration : option Z;
  completion_rate : Z
}.

(** [file_status_counts] starts at 0 for every status and takes the count of
    each [group_by(ReviewFile.status)] group; a status with no file has no
    group and keeps 0, so each entry is the number of files in that status. *)
Definition get_task_statistics (tid : string) : M TaskStatistics :=
  task ← get_task_by_id tid;
  w ← get;
  mret (mkStatistics
          (map (fun s => (s, count_files w tid (fun f => bool_decide (file_status f = s))))
               all_file_statuses)
          (match task_started_at task, task_completed_at task with
           | Some a, Some b => Some (b - a)
           | _, _ => None
           end)
          (task_progress task)).

End TaskService.

(* ===================================================================== *)
(** ** [app/services/file_service.py] *)
(* ===================================================================== *)

Module FileService.
Import Model Rows.

Definition get_file_by_id (fid : string) : M ReviewFile :=
  w ← get;
  match file_row w fid with
  | Some f => mret f
  | None => raise (NotFoundError ("file not found: " +:+ fid))
  end.

Definition update_file_status (fid : string) (status : FileStatus.t)
  (progress : option Z) (error_message : option string) : M ReviewFile :=
  f ← get_file_by_id fid;
  w ← get;
  let f := set_file_status status f in
  let f := match progress with
           | Some p => set_file_progress (Z.max 0 (Z.min 100 p)) f
           | None => f
           end in
  let f := match error_message with
           | Some e => set_file_error_message (Some e) f
           | None => f
           end in
  let f := if bool_decide (status = FileStatus.COMPLETED)
           then set_file_progress 100 (set_file_processed_at (Some (now w)) f)
           else f in
  let f := set_file_updated_at (Some (now w)) f in
  put_file f ;;
  mret f.

(** [violation_count = db.query(ReviewResult).filter(ReviewResult.file_id == file_id).count()] *)
Definition update_file_violation_count (fid : string) : M ReviewFile :=
  f ← get_file_by_id fid;
  w ← get;
  let vc := Z.of_nat (length (List.filter (fun r => String.eqb (result_file_id r) fid) (results w))) in
  let f := set_file_updated_at (Some (now w)) (set_file_violation_count vc f) in
  put_file f ;;
  mret f.

(** [delete_file]: refused while processing; the disk copy is removed (its
    errors are logged); [db.delete(file_obj)] takes the file's results with
    it ([cascade="all, delete-orphan"]).  The task row is not touched. *)
Definition delete_file (fid : string) : M bool :=
  f ← get_file_by_id fid;
  if bool_decide (file_status f = FileStatus.PROCESSING)
  then raise (BusinessError "file is processing, cannot delete")
  else
    modify (fun w => set_results
      (List.filter (fun r => negb (String.eqb (result_file_id r) fid)) (results w)) w) ;;
    modify (fun w => set_files (List.filter (fun g => negb (String.eqb (file_id g) fid)) (files w)) w) ;;
    mret true.

End FileService.

(* ===================================================================== *)
(** ** [app/workers/review_worker.py] *)
(* ===================================================================== *)

Module Worker.
Import Lease Model Rows.

(** [_update_task_progress(task_id, db)]; every exception is logged and dropped. *)
Definition update_task_progress (tid : string) : M unit :=
  try_except
    (w ← get;
     let completed_files := count_files w tid
           (fun f => bool_decide (file_status f ∈ [FileStatus.COMPLETED; FileStatus.FAILED])) in
     TaskService.update_task_progress tid (Some completed_files) ;;
     w ← get;
     let total_files := count_files w tid (fun _ => true) in
     if Z.geb completed_files total_files then
       let failed_files := count_files w tid
             (fun f => bool_decide (file_status f = FileStatus.FAILED)) in
       if Z.eqb failed_files 0 then TaskService.complete_task tid true None ;; mret tt
       else if Z.ltb failed_files total_files then TaskService.complete_task tid true None ;; mret tt
       else TaskService.complete_task tid false (Some "all files failed") ;; mret tt
     else mret tt)
    (fun _ => mret tt).

(** What the external extraction and classification pipeline does for one
    file: it yields its findings, or it raises after some findings were
    already saved (each [_save_violation_result] commits its row). *)
Inductive PipelineOutcome :=
  | PipeOk (findings : list ViolationResult.t)
  | PipeRaise (persisted : list ViolationResult.t) (e : Exn).

(** [_save_violation_result]: one [ReviewResult] row per finding, whatever its verdict. *)
Definition save_violation_result (fid : string) (v : ViolationResult.t) : M unit :=
  modify (fun w => set_results (results w ++ [mkResult fid v]) w).

Fixpoint save_all (fid : string) (l : list ViolationResult.t) : M unit :=
  match l with
  | [] => mret tt
  | v :: l' => save_violation_result fid v ;; save_all fid l'
  end.

(** The shape shared by [_process_document_file], [_process_image_file],
    [_process_video_file] and [_process_text_file]:
    [try: ... save each finding ...; return violations
     except Exception: db.rollback(); return []]
    (the classifier calls [_review_text_content_sync] and
    [_process_image_content_sync] catch the same way and return []). *)
Definition type_handler (f : ReviewFile) (o : PipelineOutcome) : M (list ViolationResult.t) :=
  try_except
    (match o with
     | PipeOk l => save_all (file_id f) l ;; mret l
     | PipeRaise p e => save_all (file_id f) p ;; raise e
     end)
    (fun _ => mret []).

Definition process_document_file := type_handler.
Definition process_image_file := type_handler.
Definition process_video_file := type_handler.
Definition process_text_file := type_handler.

(** The dictionaries returned by the Celery task. *)
Inductive ProcessResult :=
  | Skipped (reason : string)
  | Completed (fid : string) (results_count : nat)
  | Failed (fid : string) (error : string).

(** [with queue_service.file_lock(file_id):] with the lock value [token]:
    [set(lock_key, lock_value, nx=True, ex=1800)] or raise [RuntimeError];
    the release script runs in [finally]. *)
Definition with_file_lock {A} (fid token : string) (body : M A) : M A :=
  w ← get;
  let key := file_lock_key fid in
  let '(r', acquired) := redis_set_nx_ex (cache w) key token file_lock_timeout (now w) in
  if negb acquired then raise (RuntimeError "file is being processed by another worker")
  else
    modify (set_cache r') ;;
    let release := modify (fun w => set_cache (fst (release_script (cache w) key token (now w))) w) in
    x ← try_except body (fun e => release ;; raise e);
    release ;;
    mret x.

Definition process_review_file (fid tid token : string) (o : PipelineOutcome) : M ProcessResult :=
  try_except
    (with_file_lock fid token
      (file_obj ← FileService.get_file_by_id fid;
       if bool_decide (file_status file_obj ∉ [FileStatus.PENDING; FileStatus.PROCESSING])
       then mret (Skipped "file status")
       else
         FileService.update_file_status fid FileStatus.PROCESSING (Some 0) None ;;
         result ← match file_type file_obj with
                  | FileType.DOCUMENT => process_document_file file_obj o
                  | FileType.IMAGE => process_image_file file_obj o
                  | FileType.VIDEO => process_video_file file_obj o
                  | FileType.TEXT => process_text_file file_obj o
                  end;
         FileService.update_file_status fid FileStatus.COMPLETED (Some 100) None ;;
         FileService.update_file_violation_count fid ;;
         update_task_progress tid ;;
         mret (Completed fid (length result))))
    (fun e => match e with
              | RuntimeError _ => mret (Skipped "file is being processed by another worker")
              | _ =>
                  try_except
                    (FileService.update_file_status fid FileStatus.FAILED None (Some (exn_msg e)) ;;
                     update_task_progress tid)
                    (fun _ => mret tt) ;;
                  mret (Failed fid (exn_msg e))
              end).

(** Python's [needle in hay] on strings.  Strings are their UTF-8 bytes:
    equality and substring tests on code points and on UTF-8 bytes agree. *)
Fixpoint py_in (needle hay : string) : bool :=
  String.prefix needle hay ||
  match hay with
  | EmptyString => false
  | String _ hay' => py_in needle hay'
  end.

(** [result_map[...]] of [_get_violation_result_enum]. *)
Definition result_map (k : string) : option ViolationResult.t :=
  if String.eqb k "不合规" then Some ViolationResult.NON_COMPLIANT
  else if String.eqb k "合规" then Some ViolationResult.COMPLIANT
  else if String.eqb k "不确定" then Some ViolationResult.UNCERTAIN
  else if String.eqb k "non_compliant" then Some ViolationResult.NON_COMPLIANT
  else if String.eqb k "compliant" then Some ViolationResult.COMPLIANT
  else if String.eqb k "uncertain" then Some ViolationResult.UNCERTAIN
  else None.

(** [_get_violation_result_enum(result_str)]; [lower] is Python's [str.lower]
    (a parameter: it is the full Unicode case mapping). *)
Definition get_violation_result_enum (lower : string -> string) (result_str : string)
  : ViolationResult.t :=
  if String.eqb result_str "" then ViolationResult.UNCERTAIN
  else
    let result_lower := lower result_str in
    match result_map result_str with
    | Some v => v
    | None =>
        match result_map result_lower with
        | Some v => v
        | None =>
            if py_in "合规" result_str || py_in "compliant" result_lower
            then ViolationResult.COMPLIANT
            else if py_in "不合规" result_str || py_in "违规" result_str || py_in "non" result_lower
            then ViolationResult.NON_COMPLIANT
            else ViolationResult.UNCERTAIN
        end
    end.

End Worker.


(* ===================================================================== *)
(** ** [app/services/queue_service.py] and [process_review_task] *)
(* ===================================================================== *)

Module QueueService.
Import Lease Model Rows.

(** The JSON values of the status records ([json.dumps] of a dict of
    strings, ints, booleans and an ISO timestamp, read back by [json.loads]). *)
Inductive jval := JStr (s : string) | JInt (z : Z) | JBool (b : bool) | JTime (t : Z).

Abbreviation jdict := (list (string * jval)).

(** [d[k] = v] on a Python dict: in place when [k] is there, appended otherwise. *)
Fixpoint dict_set (d : jdict) (k : string) (v : jval) : jdict :=
  match d with
  | [] => [(k, v)]
  | (k', v') :: d' => if String.eqb k' k then (k, v) :: d' else (k', v') :: dict_set d' k v
  end.

(** [d.update(e)] *)
Definition dict_update (d e : jdict) : jdict :=
  fold_left (fun acc kv => dict_set acc (fst kv) (snd kv)) e d.

(** [d.get(k)] / [k in d] *)
Fixpoint dict_get (d : jdict) (k : string) : option jval :=
  match d with
  | [] => None
  | (k', v) :: d' => if String.eqb k' k then Some v else dict_get d' k
  end.

(** A Celery message: [process_review_task.delay(task_id)] or
    [process_review_file.delay(file_id, task_id, file_type)]. *)
Inductive Job := ReviewTaskJob (tid : string) | ReviewFileJob (fid tid ft : string).

(** The database with the lock keys of the cache Redis ([db]), the JSON
    keys of the cache Redis ([task_status:], [file_status:], [progress:];
    a name space of their own), the broker's messages with their ids, the
    ids revoked, and whether the broker accepts calls. *)
Record Sys := mkSys {
  db : World;
  json_store : gmap string (jdict * Z);
  jobs : list (string * Job);
  revoked : list jval;
  broker_up : bool
}.

Definition set_db (w : World) (s : Sys) : Sys :=
  mkSys w (json_store s) (jobs s) (revoked s) (broker_up s).
Definition set_json_store (m : gmap string (jdict * Z)) (s : Sys) : Sys :=
  mkSys (db s) m (jobs s) (revoked s) (broker_up s).
Definition set_jobs (j : list (string * Job)) (s : Sys) : Sys :=
  mkSys (db s) (json_store s) j (revoked s) (broker_up s).
Definition set_revoked (r : list jval) (s : Sys) : Sys :=
  mkSys (db s) (json_store s) (jobs s) r (broker_up s).

Definition SM (A : Type) := Sys -> Sys * Res A.

#[export] Instance SM_ret : MRet SM := fun A a s => (s, Ok a).
#[export] Instance SM_bind : MBind SM := fun A B k m s =>
  match m s with
  | (s', Ok a) => k a s'
  | (s', Raise e) => (s', Raise e)
  end.

Definition sraise {A} (e : Exn) : SM A := fun s => (s, Raise e).
Definition sget : SM Sys := fun s => (s, Ok s).
Definition smodify (f : Sys -> Sys) : SM unit := fun s => (f s, Ok tt).
Definition s_try_except {A} (m : SM A) (h : Exn -> SM A) : SM A :=
  fun s => match m s with
           | (s', Raise e) => h e s'
           | res => res
           end.

(** A database step inside the larger state. *)
Definition lift {A} (m : M A) : SM A :=
  fun s => let '(w', r) := m (db s) in (set_db w' s, r).

(** [cache_redis.setex(key, ttl, json.dumps(d))] *)
Definition setex (key : string) (ttl : Z) (d : jdict) : SM unit :=
  smodify (fun s => set_json_store (<[key := (d, now (db s) + ttl)]> (json_store s)) s).

(** [json.loads(cache_redis.get(key))], or [None] when the key is gone. *)
Definition json_get (key : string) : SM (option jdict) :=
  s ← sget;
  mret (match json_store s !! key with
        | Some (d, e) => if Z.ltb (now (db s)) e then Some d else None
        | None => None
        end).

Definition status_record (status : string) (t : Z) (extra_data : option jdict) : jdict :=
  let status_data := [("status", JStr status); ("updated_at", JTime t)] in
  match extra_data with
  | Some ((_ :: _) as e) => dict_update status_data e
  | _ => status_data
  end.

Definition set_task_status (tid status : string) (extra_data : option jdict) : SM bool :=
  s ← sget;
  setex ("task_status:" +:+ tid) 86400 (status_record status (now (db s)) extra_data) ;;
  mret true.

Definition get_task_status (tid : string) : SM (option jdict) := json_get ("task_status:" +:+ tid).

Definition set_file_status (fid status : string) (extra_data : option jdict) : SM bool :=
  s ← sget;
  setex ("file_status:" +:+ fid) 86400 (status_record status (now (db s)) extra_data) ;;
  mret true.

Definition get_file_status (fid : string) : SM (option jdict) := json_get ("file_status:" +:+ fid).

(** [update_progress]: the progress is clamped to [0, 100], kept one hour. *)
Definition update_progress (entity_id : string) (progress : Z) (message : string) : SM bool :=
  s ← sget;
  setex ("progress:" +:+ entity_id) 3600
    [("progress", JInt (Z.max 0 (Z.min 100 progress))); ("message", JStr message);
     ("updated_at", JTime (now (db s)))] ;;
  mret true.

Definition get_progress (entity_id : string) : SM (option jdict) := json_get ("progress:" +:+ entity_id).

Definition is_task_processing (tid : string) : SM bool :=
  s ← sget; mret (is_held (cache (db s)) (task_lock_key tid) (now (db s))).

Definition is_file_processing (fid : string) : SM bool :=
  s ← sget; mret (is_held (cache (db s)) (file_lock_key fid) (now (db s))).

(** [.delay(...)]: the broker stores the message under a fresh id, or the
    call raises (caught by every caller). *)
Definition delay (j : Job) : SM string :=
  s ← sget;
  if broker_up s then
    let id := "celery-" +:+ pretty (N.of_nat (length (jobs s))) in
    smodify (set_jobs (jobs s ++ [(id, j)])) ;; mret id
  else sraise (ValueError "broker connection error").

(** [current_app.control.revoke(id, terminate=True)] *)
Definition revoke (id : jval) : SM unit :=
  s ← sget;
  if broker_up s then smodify (set_revoked (revoked s ++ [id]))
  else sraise (ValueError "broker connection error").

Definition add_task_to_queue (tid : string) (priority : Z) : SM bool :=
  s_try_except
    (b ← is_task_processing tid;
     if (b : bool) then mret false
     else
       id ← delay (ReviewTaskJob tid);
       set_task_status tid "submitted"
         (Some [("celery_task_id", JStr id); ("priority", JInt priority); ("processing", JBool true)]) ;;
       mret true)
    (fun _ => mret false).

Definition add_file_to_queue (fid tid ft : string) (priority : Z) : SM bool :=
  s_try_except
    (b ← is_file_processing fid;
     if (b : bool) then mret false
     else
       id ← delay (ReviewFileJob fid tid ft);
       set_file_status fid "submitted"
         (Some [("celery_task_id", JStr id); ("task_id", JStr tid); ("file_type", JStr ft);
                ("processing", JBool true)]) ;;
       mret true)
    (fun _ => mret false).

(** [QueueService.cancel_task]: revoke the recorded Celery id, delete the
    task lock key (whoever holds it), record the status "cancelled". *)
Definition cancel_task (tid : string) : SM bool :=
  s_try_except
    (st ← get_task_status tid;
     match st with
     | None => mret false
     | Some d =>
         match dict_get d "celery_task_id" with
         | None => mret false
         | Some cid =>
             revoke cid ;;
             smodify (fun s => set_db (set_cache (delete (task_lock_key tid) (cache (db s))) (db s)) s) ;;
             set_task_status tid "cancelled" None ;;
             mret true
         end
     end)
    (fun _ => mret false).

End QueueService.

Module ReviewWorkerTask.
Import Lease Model Rows QueueService.

(** [FileType.value] *)
Definition file_type_value (t : FileType.t) : string :=
  match t with
  | FileType.DOCUMENT => "document"
  | FileType.IMAGE => "image"
  | FileType.VIDEO => "video"
  | FileType.TEXT => "text"
  end.

(** [with queue_service.task_lock(task_id):] with the lock value [token]. *)
Definition with_task_lock {A} (tid token : string) (body : SM A) : SM A :=
  s ← sget;
  let key := task_lock_key tid in
  let '(r', acquired) := redis_set_nx_ex (cache (db s)) key token task_lock_timeout (now (db s)) in
  if negb acquired then sraise (RuntimeError "task is being processed by another worker")
  else
    smodify (fun s => set_db (set_cache r' (db s)) s) ;;
    let release := smodify (fun s => set_db (set_cache
                     (fst (release_script (cache (db s)) key token (now (db s)))) (db s)) s) in
    x ← s_try_except body (fun e => release ;; sraise e);
    release ;;
    mret x.

(** The dictionaries [process_review_task] returns. *)
Inductive TaskRunResult :=
  | TSkipped (reason : string)
  | TCompleted (message : string)
  | TProcessing (files_queued : nat)
  | TError (error : string).

(** [for file_obj in files: queue_service.add_file_to_queue(...)] *)
Fixpoint enqueue_files (tid : string) (fs : list ReviewFile) : SM unit :=
  match fs with
  | [] => mret tt
  | f :: fs' =>
      add_file_to_queue (file_id f) tid (file_type_value (file_type f)) 0 ;;
      enqueue_files tid fs'
  end.

Definition process_review_task (tid token : string) : SM TaskRunResult :=
  s_try_except
    (with_task_lock tid token
      (task ← lift (TaskService.get_task_by_id tid);
       if bool_decide (task_status task ∉ [TaskStatus.PENDING; TaskStatus.PROCESSING])
       then mret (TSkipped "task status")
       else
         fs ← lift (TaskService.get_task_files tid (Some FileStatus.PENDING));
         match fs with
         | [] =>
             lift (TaskService.complete_task tid true (Some "没有待处理的文件")) ;;
             mret (TCompleted "没有待处理的文件")
         | _ =>
             enqueue_files tid fs ;;
             update_progress tid 10 ("已将" +:+ pretty (N.of_nat (length fs)) +:+ "个文件加入处理队列") ;;
             mret (TProcessing (length fs))
         end))
    (fun e => match e with
              | RuntimeError _ => mret (TSkipped "task is being processed by another worker")
              | _ =>
                  s_try_except
                    (task ← lift (TaskService.get_task_by_id tid);
                     if bool_decide (task_status task = TaskStatus.PROCESSING) then
                       lift (w ← get;
                             put_task (set_task_updated_at (Some (now w))
                               (set_task_error_message (Some ("启动过程中遇到问题: " +:+ exn_msg e)) task)))
                     else if bool_decide (task_status task = TaskStatus.PENDING) then
                       lift (TaskService.complete_task tid false (Some (exn_msg e))) ;; mret tt
                     else mret tt)
                    (fun _ => mret tt) ;;
                  mret (TError (exn_msg e))
              end).

End ReviewWorkerTask.

(* ===================================================================== *)
(** ** What [_update_task_progress] computes, as functions of the files *)
(* ===================================================================== *)

Module Aggregate.
Import Model Rows.

(** [completed_files]: files of the task in [COMPLETED] or [FAILED]. *)
Definition finished_files (w : World) (tid : string) : Z :=
  count_files w tid (fun f => bool_decide (file_status f ∈ [FileStatus.COMPLETED; FileStatus.FAILED])).

Definition failed_files (w : World) (tid : string) : Z :=
  count_files w tid (fun f => bool_decide (file_status f = FileStatus.FAILED)).

Definition all_files (w : World) (tid : string) : Z :=
  count_files w tid (fun _ => true).

(** The progress [update_progress] derives from the two counters. *)
Definition progress_of (processed total : Z) : Z :=
  if Z.ltb 0 total then PyFloat.percent processed total else 0.

(** The task status after the aggregation, from the status [s] before it. *)
Definition agg_status (w : World) (tid : string) (s : TaskStatus.t) : TaskStatus.t :=
  if Z.geb (finished_files w tid) (all_files w tid) then
    if Z.eqb (failed_files w tid) 0 then TaskStatus.COMPLETED
    else if Z.ltb (failed_files w tid) (all_files w tid) then TaskStatus.COMPLETED
    else TaskStatus.FAILED
  else s.

(** Status, progress and processed count of a task row. *)
Definition task_summary (o : option ReviewTask) : option (TaskStatus.t * Z * Z) :=
  option_map (fun t => (task_status t, task_progress t, task_processed_files t)) o.

(** Further calls of [_update_task_progress], each at its own clock value and
    with no file changed in between. *)
Fixpoint agg_repeat (tid : string) (clock : list Z) (w : World) : World :=
  match clock with
  | [] => w
  | n :: rest => agg_repeat tid rest (fst (Worker.update_task_progress tid (set_now n w)))
  end.

End Aggregate.

(* ===================================================================== *)
(** ** The rows the services commit *)
(* ===================================================================== *)

Module Commit.
Import Model Rows Aggregate.

(** [TaskService.update_task_progress] with a count, on an existing task. *)
Definition progress_row (w : World) (tid : string) (n : Z) (t0 : ReviewTask) : ReviewTask :=
  set_task_updated_at (Some (now w))
    (set_task_violation_count (violating_files w tid)
       (ReviewTaskM.update_progress (set_task_processed_files n t0))).

(** [TaskService.complete_task] on an existing task. *)
Definition complete_row (w : World) (tid : string) (success : bool) (err : option string)
  (t0 : ReviewTask) : ReviewTask :=
  set_task_violation_count (violating_files w tid)
    (ReviewTaskM.update_progress
       (set_task_completed_at (Some (now w))
          (if success then set_task_status TaskStatus.COMPLETED t0
           else set_task_error_message err (set_task_status TaskStatus.FAILED t0)))).

(** The row [FileService.update_file_status] commits. *)
Definition status_row (w : World) (st : FileStatus.t) (progress : option Z)
  (err : option string) (f : ReviewFile) : ReviewFile :=
  let f := set_file_status st f in
  let f := match progress with
           | Some p => set_file_progress (Z.max 0 (Z.min 100 p)) f
           | None => f
           end in
  let f := match err with
           | Some e => set_file_error_message (Some e) f
           | None => f
           end in
  let f := if bool_decide (st = FileStatus.COMPLETED)
           then set_file_progress 100 (set_file_processed_at (Some (now w)) f)
           else f in
  set_file_updated_at (Some (now w)) f.

(** The row [FileService.update_file_violation_count] commits. *)
Definition vc_row (w : World) (fid : string) (f : ReviewFile) : ReviewFile :=
  set_file_updated_at (Some (now w))
    (set_file_violation_count
       (Z.of_nat (length (List.filter (fun r => String.eqb (result_file_id r) fid) (results w)))) f).

(** What a type handler returns and what it leaves saved. *)
Definition handler_returns (o : Worker.PipelineOutcome) : list ViolationResult.t :=
  match o with Worker.PipeOk l => l | Worker.PipeRaise _ _ => [] end.
Definition handler_saves (o : Worker.PipelineOutcome) : list ViolationResult.t :=
  match o with Worker.PipeOk l => l | Worker.PipeRaise p _ => p end.

(** A world whose task row already agrees with its files. *)
Definition stable (w : World) (tid : string) : Prop :=
  forall t, task_row w tid = Some t ->
    task_processed_files t = finished_files w tid /\
    task_progress t = progress_of (finished_files w tid) (task_total_files t) /\
    task_status t = agg_status w tid (task_status t).

(** A database step that leaves the cache Redis and the clock alone. *)
Definition keeps_cache {A} (m : M A) : Prop :=
  forall w, cache (fst (m w)) = cache w /\ now (fst (m w)) = now w.

End Commit.

(* ===================================================================== *)
(** ** Concrete scenarios *)
(* ===================================================================== *)

Module Scenarios.
Import Lease Model Rows.

(** Two workers on one file lock: the second acquire fails while the first
    lease is live, succeeds once it expired. *)
Definition lease_history : list (Z * lock_op) :=
  [ (2000, Acquire (file_lock_key "f1") "worker_2" file_lock_timeout);
    (10, Acquire (file_lock_key "f1") "worker_2" file_lock_timeout);
    (0, Acquire (file_lock_key "f1") "worker_1" file_lock_timeout) ].

(** A task in processing with three text files. *)
Definition task_t (status : TaskStatus.t) (total processed : Z) : ReviewTask :=
  mkTask "t" status 0 None total processed 0 (Some 0) None None.

Definition file_in (fid : string) (status : FileStatus.t) : ReviewFile :=
  mkFile fid "t" FileType.TEXT status 0 0 None None None.

(** Two files completed, one failed. *)
Definition three_files_done : World :=
  mkWorld [task_t TaskStatus.PROCESSING 3 0]
    [file_in "a" FileStatus.COMPLETED; file_in "b" FileStatus.COMPLETED;
     file_in "c" FileStatus.FAILED] [] ∅ 100.

(** One text file waiting in a task in processing. *)
Definition one_pending : World :=
  mkWorld [task_t TaskStatus.PROCESSING 1 0] [file_in "a" FileStatus.PENDING] [] ∅ 100.

(** A task in processing whose files are pending, uploading and processing. *)
Definition cancel_world : World :=
  mkWorld [task_t TaskStatus.PROCESSING 3 0]
    [file_in "a" FileStatus.PENDING; file_in "b" FileStatus.UPLOADING;
     file_in "c" FileStatus.PROCESSING] [] ∅ 100.

(** A failed task to be started again. *)
Definition restart_world : World :=
  mkWorld [task_t TaskStatus.FAILED 2 2]
    [mkFile "a" "t" FileType.TEXT FileStatus.COMPLETED 100 0 None (Some 50) (Some 50);
     mkFile "b" "t" FileType.IMAGE FileStatus.FAILED 0 0 (Some "timeout") None (Some 50)] [] ∅ 100.

(** A completed task with its two files done. *)
Definition reopened : World :=
  mkWorld [task_t TaskStatus.COMPLETED 2 2]
    [file_in "a" FileStatus.COMPLETED; file_in "b" FileStatus.COMPLETED] [] ∅ 100.

(** [reopened] after a third text file "c" was uploaded into it: the row
    [upload_file] creates (pending, progress 0, in task "t"); the upload is
    refused only for a missing task or one in processing. *)
Definition reopened_uploaded : World :=
  mkWorld [task_t TaskStatus.COMPLETED 2 2]
    [file_in "a" FileStatus.COMPLETED; file_in "b" FileStatus.COMPLETED;
     file_in "c" FileStatus.PENDING] [] ∅ 100.

(** A task with 100 files, before any progress is recorded. *)
Definition hundred_files : World :=
  mkWorld [task_t TaskStatus.PROCESSING 100 0] [] [] ∅ 100.

(** One completed file with a single compliant result. *)
Definition compliant_only : World :=
  mkWorld [task_t TaskStatus.PROCESSING 1 0] [file_in "a" FileStatus.COMPLETED]
    [mkResult "a" ViolationResult.COMPLIANT] ∅ 100.

End Scenarios.

(* ===================================================================== *)
(** * Properties of the lease locks *)
(* ===================================================================== *)

Module LeaseFacts.
Import Lease.

Lemma set_nx_ex_true r k v ttl t r' :
  redis_set_nx_ex r k v ttl t = (r', true) ->
  redis_get r k t = None /\ r' = <[k := (v, t + ttl)]> r.
Proof.
  unfold redis_set_nx_ex. destruct (redis_get r k t); intros H; inversion H; auto.
Qed.

Lemma set_nx_ex_false r k v ttl t r' :
  redis_set_nx_ex r k v ttl t = (r', false) -> r' = r.
Proof.
  unfold redis_set_nx_ex. destruct (redis_get r k t); intros H; inversion H; auto.
Qed.

Lemma release_script_cases r k v t r' n :
  release_script r k v t = (r', n) ->
  (n = 1 /\ redis_get r k t = Some v /\ r' = delete k r) \/ (n = 0 /\ r' = r).
Proof.
  unfold release_script. destruct (redis_get r k t) as [v'|] eqn:Hg.
  - destruct (String.eqb_spec v' v) as [->|]; intros H; inversion H; subst; auto.
  - intros H; inversion H; auto.
Qed.

Lemma redis_get_live r k v e t :
  r !! k = Some (v, e) -> t < e -> redis_get r k t = Some v.
Proof.
  intros Hk Ht. unfold redis_get. rewrite Hk.
  destruct (Z.ltb_spec t e); [reflexivity | lia].
Qed.

Lemma times_ok_cons t op rest :
  times_ok ((t, op) :: rest) = true -> times_ok rest = true /\ after rest t = true.
Proof.
  destruct rest as [|[t' op'] rest']; simpl; [auto|].
  intros H. apply andb_true_iff in H as [H1 H2]. auto.
Qed.

Lemma after_le evs t t' : after evs t = true -> t <= t' -> after evs t' = true.
Proof.
  destruct evs as [|[t0 op] rest]; simpl; [auto|].
  intros H Hle. apply Z.leb_le in H. apply Z.leb_le. lia.
Qed.

(** The store agrees with the history: whoever holds a lease according to
    the history is the value stored under the key, and it is still live. *)
Lemma holds_in_store r0 evs t :
  times_ok evs = true -> after evs t = true ->
  forall k tok, holdsb (snd (exec r0 evs)) k tok t = true ->
  exists e, fst (exec r0 evs) !! k = Some (tok, e) /\ t < e.
Proof.
  revert t. induction evs as [|[t1 op] rest IH]; intros t Hord Haft k tok Hh.
  - simpl in Hh. discriminate.
  - apply times_ok_cons in Hord as [Hord Haft1].
    simpl in Haft. apply Z.leb_le in Haft.
    specialize (IH t Hord (after_le _ _ _ Haft1 Haft)).
    simpl in *. destruct (exec r0 rest) as [r log] eqn:Hex. simpl in *.
    destruct op as [k' tok' ttl | k' tok'].
    + simpl in Hh |- *.
      destruct (redis_set_nx_ex r k' tok' ttl t1) as [r' b] eqn:Hset. simpl in *.
      destruct b.
      * apply set_nx_ex_true in Hset as [Hget ->].
        apply orb_true_iff in Hh as [Hh | Hh].
        -- apply andb_true_iff in Hh as [Hh Hlt]. apply andb_true_iff in Hh as [Hk Htok].
           apply String.eqb_eq in Hk, Htok. apply Z.ltb_lt in Hlt. subst.
           exists (t1 + ttl). rewrite lookup_insert_eq. auto.
        -- destruct (IH k tok Hh) as [e [He Hte]].
           destruct (String.eq_dec k' k) as [->|Hne].
           ++ rewrite (redis_get_live r k tok e t1 He ltac:(lia)) in Hget. discriminate.
           ++ exists e. rewrite lookup_insert_ne by congruence. auto.
      * apply set_nx_ex_false in Hset as ->. auto.
    + simpl in Hh |- *.
      destruct (release_script r k' tok' t1) as [r'' n] eqn:Hrel. simpl in *.
      destruct (release_script_cases _ _ _ _ _ _ Hrel) as [[-> [Hget ->]] | [-> ->]].
      * simpl in Hh. apply andb_true_iff in Hh as [Hn Hh].
        destruct (IH k tok Hh) as [e [He Hte]].
        destruct (String.eq_dec k' k) as [->|Hne].
        -- rewrite (redis_get_live r k tok e t1 He ltac:(lia)) in Hget.
           inversion Hget; subst. rewrite !String.eqb_refl in Hn. discriminate.
        -- exists e. rewrite lookup_delete_ne by congruence. auto.
      * simpl in Hh. auto.
Qed.

End LeaseFacts.

(* ===================================================================== *)
(** * Properties of the services *)
(* ===================================================================== *)

Module DbFacts.
Import Lease Model Rows Aggregate Commit.

Lemma bind_ok {A B} (m : M A) (k : A -> M B) w w' a :
  m w = (w', Ok a) -> (m ≫= k) w = k a w'.
Proof. intros H. unfold mbind, M_bind. rewrite H. reflexivity. Qed.

Lemma bind_raise {A B} (m : M A) (k : A -> M B) w w' e :
  m w = (w', Raise e) -> (m ≫= k) w = (w', Raise e).
Proof. intros H. unfold mbind, M_bind. rewrite H. reflexivity. Qed.

Lemma task_row_id w tid t : task_row w tid = Some t -> task_id t = tid.
Proof.
  unfold task_row. intros H. apply List.find_some in H as [_ H].
  now apply String.eqb_eq in H.
Qed.

Lemma find_replace_task (ts : list ReviewTask) tid t0 t :
  List.find (fun x => String.eqb (task_id x) tid) ts = Some t0 -> task_id t = tid ->
  List.find (fun x => String.eqb (task_id x) tid)
    (map (fun t1 => if String.eqb (task_id t1) (task_id t) then t else t1) ts) = Some t.
Proof.
  intros Hf <-. induction ts as [|a ts IH]; simpl in *; [discriminate|].
  destruct (String.eqb (task_id a) (task_id t)) eqn:E.
  - simpl. rewrite String.eqb_refl. reflexivity.
  - simpl. rewrite E. auto.
Qed.

(** A committed task row is what the next query returns. *)
Lemma task_row_put w t tid t0 :
  task_row w tid = Some t0 -> task_id t = tid ->
  task_row (fst (put_task t w)) tid = Some t.
Proof. apply find_replace_task. Qed.

Lemma get_task_ok w tid t0 :
  task_row w tid = Some t0 -> TaskService.get_task_by_id tid w = (w, Ok t0).
Proof. intros H. unfold TaskService.get_task_by_id. cbv [mbind M_bind get]. rewrite H. reflexivity. Qed.

Lemma get_task_none w tid :
  task_row w tid = None ->
  TaskService.get_task_by_id tid w = (w, Raise (NotFoundError ("task not found: " +:+ tid))).
Proof. intros H. unfold TaskService.get_task_by_id. cbv [mbind M_bind get]. rewrite H. reflexivity. Qed.

Lemma get_file_ok w fid f :
  file_row w fid = Some f -> FileService.get_file_by_id fid w = (w, Ok f).
Proof. intros H. unfold FileService.get_file_by_id. cbv [mbind M_bind get]. rewrite H. reflexivity. Qed.


Lemma update_task_progress_ok w tid t0 n :
  task_row w tid = Some t0 ->
  TaskService.update_task_progress tid (Some n) w
  = (fst (put_task (progress_row w tid n t0) w), Ok (progress_row w tid n t0)).
Proof.
  intros H. unfold TaskService.update_task_progress.
  rewrite (bind_ok _ _ _ _ _ (get_task_ok _ _ _ H)). reflexivity.
Qed.


Lemma complete_task_ok w tid t0 success err :
  task_row w tid = Some t0 ->
  TaskService.complete_task tid success err w
  = (fst (put_task (complete_row w tid success err t0) w), Ok (complete_row w tid success err t0)).
Proof.
  intros H. unfold TaskService.complete_task.
  rewrite (bind_ok _ _ _ _ _ (get_task_ok _ _ _ H)). reflexivity.
Qed.

Lemma progress_row_fields w tid n t0 :
  let t := progress_row w tid n t0 in
  task_id t = task_id t0 /\ task_status t = task_status t0 /\
  task_total_files t = task_total_files t0 /\ task_processed_files t = n /\
  task_progress t = progress_of n (task_total_files t0) /\
  task_violation_count t = violating_files w tid.
Proof.
  unfold progress_row, ReviewTaskM.update_progress, progress_of. cbn.
  destruct (Z.ltb 0 (task_total_files t0)); repeat split.
Qed.

Lemma complete_row_fields w tid success err t0 :
  let t := complete_row w tid success err t0 in
  task_id t = task_id t0 /\
  task_status t = (if success then TaskStatus.COMPLETED else TaskStatus.FAILED) /\
  task_total_files t = task_total_files t0 /\
  task_processed_files t = task_processed_files t0 /\
  task_progress t = progress_of (task_processed_files t0) (task_total_files t0) /\
  task_violation_count t = violating_files w tid.
Proof.
  unfold complete_row, ReviewTaskM.update_progress, progress_of.
  destruct success; cbn; destruct (Z.ltb 0 (task_total_files t0)); repeat split.
Qed.

(** The aggregation [_update_task_progress] on an existing task: it touches
    only the task row, and the row's counters and status are the functions
    of the files given by [Aggregate]. *)
Lemma agg_spec w tid t0 :
  task_row w tid = Some t0 ->
  let w' := fst (Worker.update_task_progress tid w) in
  files w' = files w /\ results w' = results w /\ cache w' = cache w /\ now w' = now w /\
  exists t', task_row w' tid = Some t' /\
    task_total_files t' = task_total_files t0 /\
    task_processed_files t' = finished_files w tid /\
    task_progress t' = progress_of (finished_files w tid) (task_total_files t0) /\
    task_violation_count t' = violating_files w tid /\
    task_status t' = agg_status w tid (task_status t0).
Proof.
  intros H w'. subst w'.
  pose proof (task_row_id _ _ _ H) as Hid.
  set (n := finished_files w tid).
  set (t1 := progress_row w tid n t0).
  set (w1 := fst (put_task t1 w)).
  destruct (progress_row_fields w tid n t0) as (Hi1 & Hs1 & Ht1 & Hp1 & Hpr1 & Hv1).
  fold t1 in Hi1, Hs1, Ht1, Hp1, Hpr1, Hv1.
  assert (Hrow1 : task_row w1 tid = Some t1) by (apply (task_row_put _ _ _ t0); congruence).
  assert (Hcomplete : forall success err,
    let t2 := complete_row w1 tid success err t1 in
    task_row (fst (put_task t2 w1)) tid = Some t2 /\
    task_total_files t2 = task_total_files t0 /\
    task_processed_files t2 = n /\
    task_progress t2 = progress_of n (task_total_files t0) /\
    task_violation_count t2 = violating_files w tid /\
    task_status t2 = (if success then TaskStatus.COMPLETED else TaskStatus.FAILED)).
  { intros success err t2.
    destruct (complete_row_fields w1 tid success err t1) as (Hi2 & Hs2 & Ht2 & Hp2 & Hpr2 & Hv2).
    fold t2 in Hi2, Hs2, Ht2, Hp2, Hpr2, Hv2.
    split; [apply (task_row_put _ _ _ t1); [exact Hrow1 | congruence]|].
    rewrite Ht2, Hp2, Hpr2, Hv2, Hs2, Ht1, Hp1. repeat split. }
  unfold Worker.update_task_progress, try_except.
  cbv [mbind M_bind get].
  fold (finished_files w tid). fold n.
  rewrite (update_task_progress_ok _ _ _ _ H). fold t1. fold w1.
  change (count_files w1 tid (fun _ => true)) with (all_files w tid).
  change (count_files w1 tid (fun f => bool_decide (file_status f = FileStatus.FAILED)))
    with (failed_files w tid).
  unfold agg_status. fold n.
  destruct (Z.geb n (all_files w tid)).
  - assert (Hend : forall success err,
      let w2 := fst (put_task (complete_row w1 tid success err t1) w1) in
      files w2 = files w /\ results w2 = results w /\ cache w2 = cache w /\ now w2 = now w /\
      exists t', task_row w2 tid = Some t' /\
        task_total_files t' = task_total_files t0 /\ task_processed_files t' = n /\
        task_progress t' = progress_of n (task_total_files t0) /\
        task_violation_count t' = violating_files w tid /\
        task_status t' = (if success then TaskStatus.COMPLETED else TaskStatus.FAILED)).
    { intros success err w2.
      destruct (Hcomplete success err) as (Hr & Ht & Hp & Hpr & Hv & Hs).
      split; [reflexivity|]. split; [reflexivity|]. split; [reflexivity|]. split; [reflexivity|].
      eexists; split; [exact Hr|]. repeat split; assumption. }
    destruct (Z.eqb (failed_files w tid) 0);
      [|destruct (Z.ltb (failed_files w tid) (all_files w tid))];
      rewrite (complete_task_ok _ _ _ _ _ Hrow1); cbn -[put_task complete_row];
      [ apply (Hend true None) | apply (Hend true None)
      | apply (Hend false (Some "all files failed")) ].
  - cbn -[put_task]. repeat split; [reflexivity..|].
    exists t1. split; [exact Hrow1|]. rewrite Ht1, Hp1, Hpr1, Hv1, Hs1. repeat split.
Qed.


Lemma count_files_ext w w' tid P : files w' = files w -> count_files w' tid P = count_files w tid P.
Proof. intros H. unfold count_files. rewrite H. reflexivity. Qed.

Lemma count_files_all w tid P :
  (forall f, In f (files w) -> file_task_id f = tid -> P f = true) ->
  count_files w tid P = all_files w tid.
Proof.
  intros H. unfold all_files, count_files. do 2 f_equal.
  apply List.filter_ext_in. intros f Hin.
  destruct (String.eqb_spec (file_task_id f) tid) as [E|]; simpl; [|reflexivity].
  apply H; assumption.
Qed.

Lemma count_files_le w tid P : count_files w tid P <= all_files w tid.
Proof.
  unfold all_files, count_files. apply inj_le.
  induction (files w) as [|f fs IH]; simpl; [lia|].
  destruct (String.eqb (file_task_id f) tid); simpl;
    [destruct (P f); simpl; lia | lia].
Qed.

Lemma agg_absent w tid :
  task_row w tid = None -> fst (Worker.update_task_progress tid w) = w.
Proof.
  intros H. unfold Worker.update_task_progress, try_except. cbv [mbind M_bind get].
  unfold TaskService.update_task_progress.
  rewrite (bind_raise _ _ _ _ _ (get_task_none _ _ H)). reflexivity.
Qed.

Lemma agg_status_idem w tid s : agg_status w tid (agg_status w tid s) = agg_status w tid s.
Proof. unfold agg_status. destruct (Z.geb _ _); reflexivity. Qed.

Lemma agg_status_ext w w' tid s : files w' = files w -> agg_status w' tid s = agg_status w tid s.
Proof.
  intros H. unfold agg_status, finished_files, failed_files, all_files.
  rewrite !(count_files_ext w w' tid _ H). reflexivity.
Qed.


Lemma agg_makes_stable w tid : stable (fst (Worker.update_task_progress tid w)) tid.
Proof.
  destruct (task_row w tid) as [t0|] eqn:H.
  - destruct (agg_spec w tid t0 H) as (Hf & _ & _ & _ & t' & Hr & Ht & Hp & Hpr & _ & Hs).
    intros t Hr'. rewrite Hr in Hr'. injection Hr' as <-.
    unfold finished_files. rewrite (count_files_ext _ _ _ _ Hf).
    fold (finished_files w tid).
    rewrite Hp, Hpr, Ht, Hs, (agg_status_ext _ _ _ _ Hf), agg_status_idem. auto.
  - rewrite (agg_absent _ _ H). intros t Ht. congruence.
Qed.

Lemma agg_on_stable w tid :
  stable w tid ->
  task_summary (task_row (fst (Worker.update_task_progress tid w)) tid) = task_summary (task_row w tid).
Proof.
  intros Hst. destruct (task_row w tid) as [t0|] eqn:H.
  - destruct (agg_spec w tid t0 H) as (_ & _ & _ & _ & t' & Hr & Ht & Hp & Hpr & _ & Hs).
    destruct (Hst t0 H) as (Hp0 & Hpr0 & Hs0).
    rewrite Hr. simpl. rewrite Hp, Hpr, Hs, <- Hs0, <- Hpr0, <- Hp0. reflexivity.
  - rewrite (agg_absent _ _ H), H. reflexivity.
Qed.

Lemma stable_set_now w tid n : stable w tid -> stable (set_now n w) tid.
Proof. intros H. exact H. Qed.

Lemma file_row_id w fid f : file_row w fid = Some f -> file_id f = fid.
Proof.
  unfold file_row. intros H. apply List.find_some in H as [_ H].
  now apply String.eqb_eq in H.
Qed.

Lemma file_row_put w f fid f0 :
  file_row w fid = Some f0 -> file_id f = fid ->
  file_row (fst (put_file f w)) fid = Some f.
Proof.
  unfold file_row. simpl. intros Hf <-. induction (files w) as [|a fs IH]; simpl in *; [discriminate|].
  destruct (String.eqb (file_id a) (file_id f)) eqn:E.
  - simpl. rewrite String.eqb_refl. reflexivity.
  - simpl. rewrite E. auto.
Qed.

Lemma update_file_status_ok w fid st p e f :
  file_row w fid = Some f ->
  FileService.update_file_status fid st p e w
  = (fst (put_file (status_row w st p e f) w), Ok (status_row w st p e f)).
Proof.
  intros H. unfold FileService.update_file_status.
  rewrite (bind_ok _ _ _ _ _ (get_file_ok _ _ _ H)). reflexivity.
Qed.

Lemma update_file_violation_count_ok w fid f :
  file_row w fid = Some f ->
  FileService.update_file_violation_count fid w
  = (fst (put_file (vc_row w fid f) w), Ok (vc_row w fid f)).
Proof.
  intros H. unfold FileService.update_file_violation_count.
  rewrite (bind_ok _ _ _ _ _ (get_file_ok _ _ _ H)). reflexivity.
Qed.

Lemma save_all_ok fid l w :
  Worker.save_all fid l w = (set_results (results w ++ map (mkResult fid) l) w, Ok tt).
Proof.
  revert w. induction l as [|v l IH]; intros w; simpl.
  - rewrite app_nil_r. destruct w; reflexivity.
  - unfold mbind, M_bind. cbn -[Worker.save_all]. rewrite IH. simpl.
    rewrite <- app_assoc. reflexivity.
Qed.

Lemma type_handler_ok f o w :
  Worker.type_handler f o w
  = (set_results (results w ++ map (mkResult (file_id f)) (handler_saves o)) w,
     Ok (handler_returns o)).
Proof.
  destruct o; unfold Worker.type_handler, try_except; cbv [mbind M_bind mret M_ret raise];
    rewrite save_all_ok; reflexivity.
Qed.

Lemma agg_ok tid w : snd (Worker.update_task_progress tid w) = Ok tt.
Proof.
  unfold Worker.update_task_progress, try_except.
  match goal with |- snd (match ?x with _ => _ end) = _ => destruct x as [w' [[]|e]] end;
    reflexivity.
Qed.

(** The path of [process_review_file] on a pending or processing file
    whose lock is free: the type handler never raises, so the file is
    completed, its violations are counted and the task is aggregated. *)
Lemma process_completes w fid tid token o f :
  file_row w fid = Some f ->
  file_status f ∈ [FileStatus.PENDING; FileStatus.PROCESSING] ->
  redis_get (cache w) (file_lock_key fid) (now w) = None ->
  exists w_mid f',
    file_row w_mid fid = Some f' /\
    file_status f' = FileStatus.COMPLETED /\ file_progress f' = 100 /\
    file_error_message f' = file_error_message f /\
    file_task_id f' = file_task_id f /\
    file_violation_count f'
      = Z.of_nat (length (List.filter (fun r => String.eqb (result_file_id r) fid) (results w_mid))) /\
    results w_mid = results w ++ map (mkResult fid) (handler_saves o) /\
    tasks w_mid = tasks w /\ now w_mid = now w /\
    Worker.process_review_file fid tid token o w =
      (let w5 := fst (Worker.update_task_progress tid w_mid) in
       (set_cache (fst (release_script (cache w5) (file_lock_key fid) token (now w5))) w5,
        Ok (Worker.Completed fid (length (handler_returns o))))).
Proof.
  intros Hrow Hst Hlock.
  pose proof (file_row_id _ _ _ Hrow) as Hid.
  unfold Worker.process_review_file, Worker.with_file_lock.
  cbv [mbind M_bind get modify mret M_ret try_except].
  unfold redis_set_nx_ex at 1. rewrite Hlock. cbn -[FileService.get_file_by_id].
  set (w0 := set_cache _ w).
  rewrite (get_file_ok w0 fid f Hrow).
  rewrite (bool_decide_eq_false_2 _ (fun H => H Hst)).
  cbn -[FileService.update_file_status].
  rewrite (update_file_status_ok w0 fid FileStatus.PROCESSING (Some 0) None f Hrow).
  set (fP := status_row w0 FileStatus.PROCESSING (Some 0) None f).
  set (w1 := fst (put_file fP w0)).
  assert (HidP : file_id fP = fid) by exact Hid.
  assert (Hrow1 : file_row w1 fid = Some fP) by (apply (file_row_put w0 fP fid f); assumption).
  set (w2 := set_results (results w1 ++ map (mkResult fid) (handler_saves o)) w1).
  assert (Hhandler : forall m, (m = Worker.process_document_file \/ m = Worker.process_image_file \/
                                m = Worker.process_video_file \/ m = Worker.process_text_file) ->
            m f o w1 = (w2, Ok (handler_returns o))).
  { intros m Hm. subst w2. rewrite <- Hid.
    destruct Hm as [ -> | [ -> | [ -> | -> ]]]; apply type_handler_ok. }
  assert (Hrow2 : file_row w2 fid = Some fP) by exact Hrow1.
  set (fC := status_row w2 FileStatus.COMPLETED (Some 100) None fP).
  set (w3 := fst (put_file fC w2)).
  assert (Hrow3 : file_row w3 fid = Some fC) by (apply (file_row_put w2 fC fid fP); assumption).
  set (fV := vc_row w3 fid fC).
  set (w4 := fst (put_file fV w3)).
  assert (Hrow4 : file_row w4 fid = Some fV) by (apply (file_row_put w3 fV fid fC); assumption).
  assert (Htail :
    (let (w', r) := FileService.update_file_status fid FileStatus.COMPLETED (Some 100) None w2 in
     match r with
     | Ok _ =>
         let (w'0, r0) := FileService.update_file_violation_count fid w' in
         match r0 with
         | Ok _ =>
             let (w'1, r1) := Worker.update_task_progress tid w'0 in
             match r1 with
             | Ok _ => (w'1, Ok (Worker.Completed fid (length (handler_returns o))))
             | Raise e => (w'1, Raise e)
             end
         | Raise e => (w'0, Raise e)
         end
     | Raise e => (w', Raise e)
     end) = (fst (Worker.update_task_progress tid w4),
             Ok (Worker.Completed fid (length (handler_returns o))))).
  { rewrite (update_file_status_ok w2 fid _ _ _ fP Hrow2).
    cbv beta iota. fold fC. fold w3.
    rewrite (update_file_violation_count_ok w3 fid fC Hrow3).
    cbv beta iota. fold fV. fold w4.
    pose proof (agg_ok tid w4) as Hok.
    destruct (Worker.update_task_progress tid w4) as [w5 r5]. simpl in Hok. subst r5. reflexivity. }
  exists w4, fV. split; [exact Hrow4|].
  destruct (file_type f);
    [ rewrite (Hhandler Worker.process_document_file ltac:(auto))
    | rewrite (Hhandler Worker.process_image_file ltac:(auto))
    | rewrite (Hhandler Worker.process_video_file ltac:(auto))
    | rewrite (Hhandler Worker.process_text_file ltac:(auto)) ];
    rewrite Htail; cbn -[Worker.update_task_progress put_file status_row vc_row];
    (split; [reflexivity|]); (split; [reflexivity|]); (split; [reflexivity|]);
    (split; [reflexivity|]); (split; [reflexivity|]); (split; [reflexivity|]);
    (split; [reflexivity|]); (split; [reflexivity|]); reflexivity.
Qed.
Lemma task_row_tasks w w' tid : tasks w' = tasks w -> task_row w' tid = task_row w tid.
Proof. intros H. unfold task_row. rewrite H. reflexivity. Qed.

Lemma file_row_files w w' fid : files w' = files w -> file_row w' fid = file_row w fid.
Proof. intros H. unfold file_row. rewrite H. reflexivity. Qed.

Lemma file_row_in w fid f : file_row w fid = Some f -> In f (files w).
Proof. unfold file_row. intros H. apply List.find_some in H as [H _]. exact H. Qed.

Lemma count_files_pos w tid P f :
  In f (files w) -> file_task_id f = tid -> P f = true -> 0 < count_files w tid P.
Proof.
  unfold count_files. intros Hin Htid HP.
  assert (Hf : In f (List.filter (fun g => String.eqb (file_task_id g) tid && P g) (files w))).
  { apply List.filter_In. split; [exact Hin|]. rewrite Htid, String.eqb_refl, HP. reflexivity. }
  destruct (List.filter _ _); [destruct Hf|]. simpl. lia.
Qed.

(** Moving one file to a terminal status does not lower [finished_files]. *)
Lemma finished_files_mono w tid fid s :
  s ∈ [FileStatus.COMPLETED; FileStatus.FAILED] ->
  finished_files w tid <=
  finished_files (set_files (map (fun g => if String.eqb (file_id g) fid
                                          then set_file_status s g else g) (files w)) w) tid.
Proof.
  intros Hs. unfold finished_files, count_files. simpl. apply inj_le.
  induction (files w) as [|g gs IH]; simpl; [lia|].
  destruct (String.eqb (file_id g) fid); simpl;
    [| destruct (String.eqb (file_task_id g) tid && _); simpl; lia].
  destruct (String.eqb (file_task_id g) tid); simpl; [|lia].
  rewrite (bool_decide_eq_true_2 (s ∈ _) Hs).
  destruct (bool_decide (file_status g ∈ _)); simpl; lia.
Qed.

Lemma list_map_lookup {A B} (g : A -> B) (l : list A) i :
  List.map g l !! i = option_map g (l !! i).
Proof. revert i. induction l as [|x l IH]; intros [|i]; simpl; auto. Qed.

Lemma filter_map_length {A B} (P : B -> bool) (h : A -> B) (l : list A) :
  length (List.filter P (List.map h l)) = length (List.filter (fun x => P (h x)) l).
Proof. induction l as [|x l IH]; simpl; [reflexivity|]. destruct (P (h x)); simpl; auto. Qed.

End DbFacts.


(* ===================================================================== *)
(** * Database steps leave the lease store alone *)
(* ===================================================================== *)

Module KeepFacts.
Import Lease LeaseFacts Model Rows Commit.

Lemma keeps_ret {A} (a : A) : keeps_cache (mret a).
Proof. intros w. split; reflexivity. Qed.

Lemma keeps_get : keeps_cache get.
Proof. intros w. split; reflexivity. Qed.

Lemma keeps_raise {A} (e : Exn) : keeps_cache (A:=A) (raise e).
Proof. intros w. split; reflexivity. Qed.

Lemma keeps_modify (f : World -> World) :
  (forall w, cache (f w) = cache w /\ now (f w) = now w) -> keeps_cache (modify f).
Proof. intros H w. exact (H w). Qed.

Lemma keeps_bind {A B} (m : M A) (k : A -> M B) :
  keeps_cache m -> (forall a, keeps_cache (k a)) -> keeps_cache (m ≫= k).
Proof.
  intros Hm Hk w. unfold mbind, M_bind. specialize (Hm w).
  destruct (m w) as [w1 [a|e]]; simpl in *; [|exact Hm].
  destruct (Hk a w1) as [H1 H2]. split; [rewrite H1|rewrite H2]; apply Hm.
Qed.

Lemma keeps_try {A} (m : M A) (h : Exn -> M A) :
  keeps_cache m -> (forall e, keeps_cache (h e)) -> keeps_cache (try_except m h).
Proof.
  intros Hm Hh w. unfold try_except. specialize (Hm w).
  destruct (m w) as [w1 [a|e]]; simpl in *; [exact Hm|].
  destruct (Hh e w1) as [H1 H2]. split; [rewrite H1|rewrite H2]; apply Hm.
Qed.

Lemma keeps_put_task t : keeps_cache (put_task t).
Proof. apply keeps_modify. intros w. split; reflexivity. Qed.

Lemma keeps_put_file f : keeps_cache (put_file f).
Proof. apply keeps_modify. intros w. split; reflexivity. Qed.

Ltac keeps_tac :=
  repeat match goal with
  | |- keeps_cache (mbind _ _) => apply keeps_bind; [|intros]
  | |- keeps_cache (mret _) => apply keeps_ret
  | |- keeps_cache get => apply keeps_get
  | |- keeps_cache (raise _) => apply keeps_raise
  | |- keeps_cache (try_except _ _) => apply keeps_try; [|intros]
  | |- keeps_cache (put_task _) => apply keeps_put_task
  | |- keeps_cache (put_file _) => apply keeps_put_file
  | |- keeps_cache (modify _) => apply keeps_modify; intros; split; reflexivity
  | |- keeps_cache (if ?b then _ else _) => destruct b
  | |- keeps_cache (match ?x with _ => _ end) => destruct x
  | H : forall x, keeps_cache (?f x) |- keeps_cache (?f _) => apply H
  | H : forall x y, keeps_cache (?f x y) |- keeps_cache (?f _ _) => apply H
  | H : forall x y z, keeps_cache (?f x y z) |- keeps_cache (?f _ _ _) => apply H
  | H : forall x y z u, keeps_cache (?f x y z u) |- keeps_cache (?f _ _ _ _) => apply H
  end.

Lemma keeps_get_task tid : keeps_cache (TaskService.get_task_by_id tid).
Proof. unfold TaskService.get_task_by_id. keeps_tac. Qed.

Lemma keeps_get_file fid : keeps_cache (FileService.get_file_by_id fid).
Proof. unfold FileService.get_file_by_id. keeps_tac. Qed.

Lemma keeps_task_progress tid n : keeps_cache (TaskService.update_task_progress tid n).
Proof. unfold TaskService.update_task_progress. pose proof keeps_get_task. keeps_tac. Qed.

Lemma keeps_complete_task tid b m : keeps_cache (TaskService.complete_task tid b m).
Proof. unfold TaskService.complete_task. pose proof keeps_get_task. keeps_tac. Qed.

Lemma keeps_update_file_status fid st p e : keeps_cache (FileService.update_file_status fid st p e).
Proof. unfold FileService.update_file_status. pose proof keeps_get_file. keeps_tac. Qed.

Lemma keeps_update_vc fid : keeps_cache (FileService.update_file_violation_count fid).
Proof. unfold FileService.update_file_violation_count. pose proof keeps_get_file. keeps_tac. Qed.

Lemma keeps_agg tid : keeps_cache (Worker.update_task_progress tid).
Proof.
  unfold Worker.update_task_progress.
  pose proof keeps_task_progress. pose proof keeps_complete_task. keeps_tac.
Qed.

Lemma keeps_save_all fid l : keeps_cache (Worker.save_all fid l).
Proof.
  induction l as [|v l IH]; simpl; [apply keeps_ret|].
  apply keeps_bind; [|intros; exact IH].
  apply keeps_modify. intros; split; reflexivity.
Qed.

Lemma keeps_type_handler f o : keeps_cache (Worker.type_handler f o).
Proof. unfold Worker.type_handler. pose proof keeps_save_all. keeps_tac. Qed.

(** The file lock around a step that keeps the lease store: when the lock is
    free, what remains afterwards is the store without the file's key. *)
Lemma try_file_lock_free {A} fid token (body : M A) (h : Exn -> M A) w :
  keeps_cache body -> (forall e, keeps_cache (h e)) ->
  redis_get (cache w) (file_lock_key fid) (now w) = None ->
  cache (fst (try_except (Worker.with_file_lock fid token body) h w))
    = delete (file_lock_key fid) (cache w) /\
  now (fst (try_except (Worker.with_file_lock fid token body) h w)) = now w.
Proof.
  intros Hb Hh Hlock.
  assert (Hrel : forall w2, cache w2 = <[file_lock_key fid := (token, now w + file_lock_timeout)]> (cache w) ->
            now w2 = now w ->
            release_script (cache w2) (file_lock_key fid) token (now w2) = (delete (file_lock_key fid) (cache w), 1)).
  { intros w2 Hc Hn. unfold release_script. rewrite Hc, Hn.
    rewrite (redis_get_live _ _ token (now w + file_lock_timeout));
      [| apply lookup_insert_eq | unfold file_lock_timeout; lia].
    rewrite String.eqb_refl, delete_insert_eq. reflexivity. }
  unfold Worker.with_file_lock, try_except.
  cbv [mbind M_bind get modify mret M_ret].
  cbv zeta. unfold redis_set_nx_ex. rewrite Hlock. cbn [negb].
  set (w1 := set_cache (<[file_lock_key fid := (token, now w + file_lock_timeout)]> (cache w)) w).
  destruct (Hb w1) as [Hc1 Hn1].
  destruct (body w1) as [w2 [x|e]]; cbn [fst] in Hc1, Hn1; subst w1; cbn in Hc1, Hn1.
  - rewrite (Hrel w2 Hc1 Hn1). cbn. split; [reflexivity | exact Hn1].
  - rewrite (Hrel w2 Hc1 Hn1). cbn.
    destruct (Hh e (set_cache (delete (file_lock_key fid) (cache w)) w2)) as [Hc3 Hn3].
    split; [rewrite Hc3 | rewrite Hn3]; cbn; [reflexivity | exact Hn1].
Qed.

End KeepFacts.

(* ===================================================================== *)
(** * The claims *)
(* ===================================================================== *)

Module Claims.
Import Lease LeaseFacts Model Rows Aggregate Commit DbFacts Scenarios.

(** C1 (mutual exclusion of the lease lock): an acquire ([SET NX EX])
    succeeds only when no live lease exists for the key; and along any
    history of acquires and releases with non-decreasing times, at any
    later instant, two owners that both hold a live lease on the same key
    (each by a successful acquire, not expired, not released since) are the
    same owner. *)
Theorem lease_mutual_exclusion (r0 : redis) (evs : list (Z * lock_op)) (t : Z)
  (Horder : times_ok evs = true) (Hnow : after evs t = true) :
  (forall r k tok ttl t' r',
      redis_set_nx_ex r k tok ttl t' = (r', true) -> redis_get r k t' = None)
  /\ (forall k a b,
      holdsb (snd (exec r0 evs)) k a t = true ->
      holdsb (snd (exec r0 evs)) k b t = true -> a = b).
Proof.
  split.
  - intros r k tok ttl t' r' H. apply (set_nx_ex_true _ _ _ _ _ _ H).
  - intros k a b Ha Hb.
    destruct (holds_in_store r0 evs t Horder Hnow k a Ha) as [ea [Hea _]].
    destruct (holds_in_store r0 evs t Horder Hnow k b Hb) as [eb [Heb _]].
    rewrite Hea in Heb. congruence.
Qed.

Lemma lease_mutual_exclusion_witness :
  times_ok lease_history = true /\ after lease_history 2100 = true /\
  (forall k a b,
      holdsb (snd (exec ∅ lease_history)) k a 2100 = true ->
      holdsb (snd (exec ∅ lease_history)) k b 2100 = true -> a = b).
Proof.
  refine (conj eq_refl (conj eq_refl _)).
  exact (proj2 (lease_mutual_exclusion ∅ lease_history 2100 eq_refl eq_refl)).
Defined.

(** C2 (lease release correctness): the release script deletes the key only
    when its live value equals the caller's token (and otherwise leaves the
    store as it is); so once another owner [b] holds the key, a release by
    [a] is a no-op, in particular right after [b]'s successful acquire
    (which needs [a]'s lease to have expired), and [b]'s lease is still held. *)
Theorem lease_release_correctness :
  (forall r k a t r' n, release_script r k a t = (r', n) ->
      (n = 1 /\ redis_get r k t = Some a /\ r' = delete k r) \/ (n = 0 /\ r' = r))
  /\ (forall r k a b t, a <> b -> redis_get r k t = Some b ->
      release_script r k a t = (r, 0))
  /\ (forall r k a b ttl t2 t3 r2, a <> b ->
      redis_set_nx_ex r k b ttl t2 = (r2, true) -> t2 <= t3 < t2 + ttl ->
      release_script r2 k a t3 = (r2, 0) /\ is_held r2 k t3 = true).
Proof.
  assert (Hother : forall r k a b t, a <> b -> redis_get r k t = Some b ->
            release_script r k a t = (r, 0)).
  { intros r k a b t Hab Hg. unfold release_script. rewrite Hg.
    destruct (String.eqb_spec b a); [congruence | reflexivity]. }
  split; [exact release_script_cases|]. split; [exact Hother|].
  intros r k a b ttl t2 t3 r2 Hab Hset Ht.
  apply set_nx_ex_true in Hset as [_ ->].
  assert (Hg : redis_get (<[k:=(b, t2 + ttl)]> r) k t3 = Some b).
  { apply (redis_get_live _ _ _ (t2 + ttl)); [apply lookup_insert_eq | lia]. }
  split; [exact (Hother _ _ _ _ _ Hab Hg)|].
  unfold is_held. rewrite Hg. reflexivity.
Qed.

(** The spec's scenario: A acquires with a short lease, B acquires after
    A's expiry, A's release returns 0 and B still holds the key. *)
Lemma lease_release_correctness_witness :
  let r1 := fst (redis_set_nx_ex ∅ (task_lock_key "t1") "worker_A" 1 0) in
  redis_set_nx_ex r1 (task_lock_key "t1") "worker_B" 60 5
    = (<[task_lock_key "t1" := ("worker_B", 65)]> r1, true) /\
  release_script (<[task_lock_key "t1" := ("worker_B", 65)]> r1) (task_lock_key "t1") "worker_A" 6
    = (<[task_lock_key "t1" := ("worker_B", 65)]> r1, 0) /\
  is_held (<[task_lock_key "t1" := ("worker_B", 65)]> r1) (task_lock_key "t1") 6 = true.
Proof.
  intros r1.
  assert (Hacq : redis_set_nx_ex r1 (task_lock_key "t1") "worker_B" 60 5
                 = (<[task_lock_key "t1" := ("worker_B", 65)]> r1, true)) by reflexivity.
  split; [exact Hacq|].
  apply (proj2 (proj2 lease_release_correctness) r1 (task_lock_key "t1") "worker_A" "worker_B"
           60 5 6 _); [discriminate | exact Hacq | lia].
Defined.

(** C3 (partial-success policy): when every File of an existing Task is
    completed or failed (and there is at least one), the aggregation
    [_update_task_progress] sets the Task to completed when fewer Files
    failed than the Task has, and to failed when all of them failed. *)
Theorem partial_success_policy (w : World) (tid : string) (t0 : ReviewTask)
  (Hrow : task_row w tid = Some t0)
  (Hnonempty : 0 < all_files w tid)
  (Hterminal : forall f, In f (files w) -> file_task_id f = tid ->
                 file_status f ∈ [FileStatus.COMPLETED; FileStatus.FAILED]) :
  exists t', task_row (fst (Worker.update_task_progress tid w)) tid = Some t' /\
    (failed_files w tid < all_files w tid -> task_status t' = TaskStatus.COMPLETED) /\
    (failed_files w tid = all_files w tid -> task_status t' = TaskStatus.FAILED).
Proof.
  destruct (agg_spec w tid t0 Hrow) as (_ & _ & _ & _ & t' & Hr & _ & _ & _ & _ & Hs).
  exists t'. split; [exact Hr|].
  assert (Hfin : finished_files w tid = all_files w tid).
  { apply count_files_all. intros f Hin Htid. apply bool_decide_eq_true_2. auto. }
  rewrite Hs. unfold agg_status. rewrite Hfin, Z.geb_leb, Z.leb_refl.
  split; intros Hlt.
  - destruct (Z.eqb_spec (failed_files w tid) 0); [reflexivity|].
    apply Z.ltb_lt in Hlt. rewrite Hlt. reflexivity.
  - rewrite Hlt. destruct (Z.eqb_spec (all_files w tid) 0); [lia|].
    rewrite Z.ltb_irrefl. reflexivity.
Qed.

(** The spec's example: 2 of 3 files completed and 1 failed: completed. *)
Lemma partial_success_policy_witness :
  exists t', task_row (fst (Worker.update_task_progress "t" three_files_done)) "t" = Some t' /\
    task_status t' = TaskStatus.COMPLETED.
Proof.
  destruct (partial_success_policy three_files_done "t" (task_t TaskStatus.PROCESSING 3 0)
              eq_refl ltac:(vm_compute; reflexivity)
              ltac:(intros f Hin _; destruct Hin as [<-|[<-|[<-|[]]]]; simpl; set_solver))
    as [t' [Hr [Hc _]]].
  exists t'. split; [exact Hr|]. apply Hc. vm_compute. reflexivity.
Defined.

(** C4 (idempotent aggregation): after one call of [_update_task_progress],
    any number of further calls, at any clock values and with no File
    changed in between, leave the Task's status, progress and
    processed_files as the first call left them. *)
Theorem idempotent_aggregation (w : World) (tid : string) (clock : list Z) :
  let w1 := fst (Worker.update_task_progress tid w) in
  task_summary (task_row (agg_repeat tid clock w1) tid) = task_summary (task_row w1 tid).
Proof.
  intros w1. assert (Hst : stable w1 tid) by apply agg_makes_stable.
  clearbody w1. revert w1 Hst.
  induction clock as [|n rest IH]; intros v Hst; simpl; [reflexivity|].
  rewrite IH by apply agg_makes_stable.
  rewrite (agg_on_stable _ _ (stable_set_now _ _ n Hst)). reflexivity.
Qed.

(** Counterexample to C5 as stated: the pipeline of a pending text file
    raises, yet the file ends completed with no error message. *)
Lemma classification_failure_handling_counterexample :
  option_map (fun f => (file_status f, file_error_message f))
    (file_row (fst (Worker.process_review_file "a" "t" "worker_1"
                      (Worker.PipeRaise [] (RuntimeError "timeout")) one_pending)) "a")
  = Some (FileStatus.COMPLETED, None).
Proof. vm_compute. reflexivity. Qed.

(** C5 (amended: classification failure handling).  When the extraction or
    classification pipeline raises while a pending or processing File is
    processed (its lock free, its Task existing), the type handler catches
    the exception and returns no findings: the results saved before the
    exception stay, the File ends completed with progress 100 and its
    error_message unchanged, the worker returns a completed result, and the
    aggregation still runs: the Task's processed_files is the number of its
    completed or failed Files, this one included. *)
Theorem classification_failure_handling (w : World) (fid tid token : string)
  (f : ReviewFile) (t0 : ReviewTask) (p : list ViolationResult.t) (e : Exn)
  (Hrow : file_row w fid = Some f)
  (Hst : file_status f ∈ [FileStatus.PENDING; FileStatus.PROCESSING])
  (Hlock : redis_get (cache w) (file_lock_key fid) (now w) = None)
  (Htask : task_row w tid = Some t0) :
  let '(w', r) := Worker.process_review_file fid tid token (Worker.PipeRaise p e) w in
  r = Ok (Worker.Completed fid 0) /\
  exists f' t', file_row w' fid = Some f' /\
    file_status f' = FileStatus.COMPLETED /\ file_progress f' = 100 /\
    file_error_message f' = file_error_message f /\
    results w' = results w ++ map (mkResult fid) p /\
    task_row w' tid = Some t' /\ task_processed_files t' = finished_files w' tid.
Proof.
  destruct (process_completes w fid tid token (Worker.PipeRaise p e) f Hrow Hst Hlock)
    as (w_mid & f' & Hr & Hs & Hp & He & _ & _ & Hres & Htasks & _ & Hrun).
  rewrite Hrun. cbv zeta.
  assert (Htask_mid : task_row w_mid tid = Some t0).
  { rewrite (task_row_tasks _ _ _ Htasks). exact Htask. }
  destruct (agg_spec w_mid tid t0 Htask_mid)
    as (Hf5 & Hr5 & _ & _ & t' & Ht' & _ & Hpf & _ & _ & _).
  split; [reflexivity|].
  exists f', t'.
  split; [transitivity (file_row w_mid fid); [apply file_row_files; exact Hf5 | exact Hr]|].
  split; [exact Hs|]. split; [exact Hp|]. split; [exact He|].
  split; [cbn [results set_cache]; rewrite Hr5, Hres; reflexivity|].
  split; [exact Ht'|].
  rewrite Hpf. unfold finished_files. symmetry. apply count_files_ext. exact Hf5.
Qed.

Lemma classification_failure_handling_witness :
  file_row one_pending "a" = Some (file_in "a" FileStatus.PENDING) /\
  (let '(w', r) := Worker.process_review_file "a" "t" "worker_1"
                     (Worker.PipeRaise [] (RuntimeError "timeout")) one_pending in
   r = Ok (Worker.Completed "a" 0) /\
   exists f' t', file_row w' "a" = Some f' /\
     file_status f' = FileStatus.COMPLETED /\ file_progress f' = 100 /\
     file_error_message f' = file_error_message (file_in "a" FileStatus.PENDING) /\
     results w' = results one_pending ++ map (mkResult "a") [] /\
     task_row w' "t" = Some t' /\ task_processed_files t' = finished_files w' "t").
Proof.
  split; [reflexivity|].
  exact (classification_failure_handling one_pending "a" "t" "worker_1"
           (file_in "a" FileStatus.PENDING) (task_t TaskStatus.PROCESSING 1 0) []
           (RuntimeError "timeout") eq_refl ltac:(simpl; set_solver) eq_refl eq_refl).
Defined.

(** C6 (skip on terminal): on a File whose status is not pending or
    processing, [process_review_file] returns a skipped result and leaves
    the results, the files (status, progress and error_message included)
    and the tasks as they were; only the lease store may differ. *)
Theorem skip_on_terminal (w : World) (fid tid token : string)
  (o : Worker.PipelineOutcome) (f : ReviewFile)
  (Hrow : file_row w fid = Some f)
  (Hst : file_status f ∉ [FileStatus.PENDING; FileStatus.PROCESSING]) :
  let '(w', r) := Worker.process_review_file fid tid token o w in
  (exists reason, r = Ok (Worker.Skipped reason)) /\
  results w' = results w /\ files w' = files w /\ tasks w' = tasks w.
Proof.
  unfold Worker.process_review_file, Worker.with_file_lock.
  cbv [mbind M_bind get modify mret M_ret try_except].
  destruct (redis_set_nx_ex _ _ _ _ _) as [r' acq]. destruct acq; cbn -[FileService.get_file_by_id].
  - rewrite (get_file_ok (set_cache r' w) fid f Hrow).
    rewrite (bool_decide_eq_true_2 _ Hst). cbn. eauto.
  - eauto.
Qed.

Lemma skip_on_terminal_witness :
  let '(w', r) := Worker.process_review_file "a" "t" "worker_1" (Worker.PipeOk []) three_files_done in
  (exists reason, r = Ok (Worker.Skipped reason)) /\
  results w' = results three_files_done /\ files w' = files three_files_done /\
  tasks w' = tasks three_files_done.
Proof.
  exact (skip_on_terminal three_files_done "a" "t" "worker_1" (Worker.PipeOk [])
           (file_in "a" FileStatus.COMPLETED) eq_refl ltac:(simpl; set_solver)).
Defined.

(** Counterexample to C7 as stated: cancelling a task in processing leaves
    its uploading file uploading. *)
Lemma cancellation_rules_counterexample :
  option_map file_status (file_row (fst (TaskService.cancel_task "t" cancel_world)) "b")
  = Some FileStatus.UPLOADING /\
  option_map task_status (task_row (fst (TaskService.cancel_task "t" cancel_world)) "t")
  = Some TaskStatus.CANCELLED.
Proof. vm_compute. split; reflexivity. Qed.

(** C7 (amended: cancellation).  [cancel_task] on an existing Task whose
    status is not pending or processing raises a business error and changes
    nothing.  From pending or processing it returns the Task, now
    cancelled, and each File of the Task whose status is pending or
    processing becomes cancelled; every other File (an uploading one
    included) keeps its row. *)
Theorem cancellation_rules (w : World) (tid : string) (t0 : ReviewTask)
  (Hrow : task_row w tid = Some t0) :
  let '(w', r) := TaskService.cancel_task tid w in
  (task_status t0 ∉ [TaskStatus.PENDING; TaskStatus.PROCESSING] ->
     w' = w /\ exists m, r = Raise (BusinessError m)) /\
  (task_status t0 ∈ [TaskStatus.PENDING; TaskStatus.PROCESSING] ->
     (exists t', r = Ok t' /\ task_row w' tid = Some t' /\
                 task_status t' = TaskStatus.CANCELLED) /\
     length (files w') = length (files w) /\
     forall i f, files w !! i = Some f ->
       (file_task_id f = tid -> file_status f ∈ [FileStatus.PENDING; FileStatus.PROCESSING] ->
          files w' !! i = Some (set_file_status FileStatus.CANCELLED f)) /\
       (file_task_id f <> tid \/ file_status f ∉ [FileStatus.PENDING; FileStatus.PROCESSING] ->
          files w' !! i = Some f)).
Proof.
  pose proof (task_row_id _ _ _ Hrow) as Hid.
  unfold TaskService.cancel_task.
  rewrite (bind_ok _ _ _ _ _ (get_task_ok _ _ _ Hrow)).
  destruct (decide (task_status t0 ∈ [TaskStatus.PENDING; TaskStatus.PROCESSING])) as [Hin|Hnin].
  - rewrite (bool_decide_eq_false_2 _ (fun H => H Hin)).
    cbv [mbind M_bind get modify mret M_ret put_task]. cbn [files tasks set_files set_tasks].
    split; [intros H; contradiction|]. intros _.
    split.
    + eexists. split; [reflexivity|]. split; [|reflexivity].
      unfold task_row. cbn [tasks set_files set_tasks].
      apply (find_replace_task _ _ t0); [exact Hrow|exact Hid].
    + split; [apply length_map|].
      intros i f Hf. rewrite list_map_lookup, Hf. simpl.
      split.
      * intros Ht Hs. rewrite Ht, String.eqb_refl, (bool_decide_eq_true_2 _ Hs). reflexivity.
      * intros [Ht|Hs].
        -- apply String.eqb_neq in Ht. rewrite Ht. reflexivity.
        -- rewrite (bool_decide_eq_false_2 _ Hs), andb_false_r. reflexivity.
  - rewrite (bool_decide_eq_true_2 _ Hnin). cbv [raise].
    split; [intros _; split; [reflexivity | eexists; reflexivity]|].
    intros H; contradiction.
Qed.

Lemma cancellation_rules_witness :
  let '(w', r) := TaskService.cancel_task "t" cancel_world in
  (task_status (task_t TaskStatus.PROCESSING 3 0) ∉ [TaskStatus.PENDING; TaskStatus.PROCESSING] ->
     w' = cancel_world /\ exists m, r = Raise (BusinessError m)) /\
  (task_status (task_t TaskStatus.PROCESSING 3 0) ∈ [TaskStatus.PENDING; TaskStatus.PROCESSING] ->
     (exists t', r = Ok t' /\ task_row w' "t" = Some t' /\
                 task_status t' = TaskStatus.CANCELLED) /\
     length (files w') = length (files cancel_world) /\
     forall i f, files cancel_world !! i = Some f ->
       (file_task_id f = "t" -> file_status f ∈ [FileStatus.PENDING; FileStatus.PROCESSING] ->
          files w' !! i = Some (set_file_status FileStatus.CANCELLED f)) /\
       (file_task_id f <> "t" \/ file_status f ∉ [FileStatus.PENDING; FileStatus.PROCESSING] ->
          files w' !! i = Some f)).
Proof. exact (cancellation_rules cancel_world "t" (task_t TaskStatus.PROCESSING 3 0) eq_refl). Defined.

(** C8 (restart resets): [start_task] on a Task that is failed, cancelled or
    completed and owns at least one File returns true; afterwards every
    File of the Task is pending with progress 0, no error_message and no
    processed_at, and the Task is processing with processed_files,
    violation_count and progress 0 and total_files its number of Files. *)
Theorem restart_resets (w : World) (tid : string) (t0 : ReviewTask)
  (Hrow : task_row w tid = Some t0)
  (Hterm : task_status t0 ∈ [TaskStatus.CANCELLED; TaskStatus.FAILED; TaskStatus.COMPLETED])
  (Hfiles : 0 < all_files w tid) :
  let '(w', r) := TaskService.start_task tid w in
  r = Ok true /\
  (forall f, In f (files w') -> file_task_id f = tid ->
     file_status f = FileStatus.PENDING /\ file_progress f = 0 /\
     file_error_message f = None /\ file_processed_at f = None) /\
  exists t', task_row w' tid = Some t' /\ task_status t' = TaskStatus.PROCESSING /\
    task_processed_files t' = 0 /\ task_violation_count t' = 0 /\ task_progress t' = 0 /\
    task_total_files t' = all_files w tid.
Proof.
  pose proof (task_row_id _ _ _ Hrow) as Hid.
  assert (Hallowed : task_status t0 ∈ [TaskStatus.PENDING; TaskStatus.CANCELLED;
                                        TaskStatus.FAILED; TaskStatus.COMPLETED]).
  { revert Hterm. destruct (task_status t0); simpl; set_solver. }
  unfold TaskService.start_task.
  rewrite (bind_ok _ _ _ _ _ (get_task_ok _ _ _ Hrow)).
  rewrite (bool_decide_eq_false_2 _ (fun H => H Hallowed)).
  cbv [mbind M_bind get modify mret M_ret put_task].
  fold (all_files w tid).
  rewrite (proj2 (Z.eqb_neq (all_files w tid) 0) ltac:(lia)).
  rewrite (bool_decide_eq_true_2 _ Hterm).
  cbn [files tasks set_files set_tasks].
  split; [reflexivity|]. split.
  - intros f Hin Htid. apply in_map_iff in Hin as [g [Hg Hin]].
    destruct (String.eqb_spec (file_task_id g) tid) as [E|E].
    + subst f. repeat split.
    + subst f. contradiction.
  - eexists. split.
    + unfold task_row. cbn [tasks set_files set_tasks].
      apply (find_replace_task _ _ t0); [exact Hrow|exact Hid].
    + repeat split.
Qed.

Lemma restart_resets_witness :
  let '(w', r) := TaskService.start_task "t" restart_world in
  r = Ok true /\
  (forall f, In f (files w') -> file_task_id f = "t" ->
     file_status f = FileStatus.PENDING /\ file_progress f = 0 /\
     file_error_message f = None /\ file_processed_at f = None) /\
  exists t', task_row w' "t" = Some t' /\ task_status t' = TaskStatus.PROCESSING /\
    task_processed_files t' = 0 /\ task_violation_count t' = 0 /\ task_progress t' = 0 /\
    task_total_files t' = all_files restart_world "t".
Proof.
  exact (restart_resets restart_world "t" (task_t TaskStatus.FAILED 2 2) eq_refl
           ltac:(simpl; set_solver) ltac:(vm_compute; reflexivity)).
Defined.

(** Counterexample to C9 as stated: a file uploaded into a completed task
    ([reopened_uploaded]: upload is refused only for a missing task or one
    in processing, and does not touch total_files) and then processed
    gives processed_files 3 over total_files 2 and progress 150; and with
    29 of 100 files the binary64 computation [int((29 / 100) * 100)] gives
    28, not the floor 29. *)
Lemma task_progress_invariant_counterexample :
  let w := fst (Worker.process_review_file "c" "t" "worker_1" (Worker.PipeOk [])
                  reopened_uploaded) in
  task_summary (task_row w "t") = Some (TaskStatus.COMPLETED, 150, 3) /\
  option_map task_total_files (task_row w "t") = Some 2 /\
  option_map task_progress
    (task_row (fst (TaskService.update_task_progress "t" (Some 29) hundred_files)) "t") = Some 28.
Proof. vm_compute. repeat split. Qed.

(** C9 (what the code does: task progress).  The aggregation [_update_task_progress]
    on an existing Task keeps total_files, sets processed_files to the
    number of the Task's Files that are completed or failed, and progress
    to [progress_of], the binary64 value [int((processed / total) * 100)]
    when total_files > 0 and 0 otherwise; processed_files <= total_files
    holds when the Task has no more Files than total_files; and when one
    File then moves to completed or failed, the next aggregation records a
    processed_files no smaller. *)
Theorem task_progress_invariant (w : World) (tid : string) (t0 : ReviewTask)
  (Hrow : task_row w tid = Some t0) :
  let w1 := fst (Worker.update_task_progress tid w) in
  exists t', task_row w1 tid = Some t' /\
    task_total_files t' = task_total_files t0 /\
    task_processed_files t' = finished_files w tid /\
    task_progress t' = progress_of (task_processed_files t') (task_total_files t') /\
    (all_files w tid <= task_total_files t0 -> task_processed_files t' <= task_total_files t') /\
    (forall fid s, s ∈ [FileStatus.COMPLETED; FileStatus.FAILED] ->
       let w2 := set_files (map (fun g => if String.eqb (file_id g) fid
                                          then set_file_status s g else g) (files w1)) w1 in
       exists t'', task_row (fst (Worker.update_task_progress tid w2)) tid = Some t'' /\
         task_processed_files t' <= task_processed_files t'').
Proof.
  intros w1.
  destruct (agg_spec w tid t0 Hrow) as (Hf1 & _ & _ & _ & t' & Hr & Ht & Hp & Hpr & _ & _).
  exists t'. split; [exact Hr|]. split; [exact Ht|]. split; [exact Hp|].
  split; [rewrite Hp, Ht; exact Hpr|].
  split; [intros Hle; rewrite Hp, Ht; pose proof (count_files_le w tid
            (fun f => bool_decide (file_status f ∈ [FileStatus.COMPLETED; FileStatus.FAILED])));
          unfold finished_files; lia|].
  intros fid s Hs w2.
  assert (Hr2 : task_row w2 tid = Some t') by (rewrite (task_row_tasks w1 w2 tid eq_refl); exact Hr).
  destruct (agg_spec w2 tid t' Hr2) as (_ & _ & _ & _ & t'' & Hr'' & _ & Hp'' & _).
  exists t''. split; [exact Hr''|]. rewrite Hp'', Hp.
  pose proof (finished_files_mono w1 tid fid s Hs) as Hmono. fold w2 in Hmono.
  unfold finished_files in *. rewrite <- (count_files_ext w w1 tid _ Hf1). exact Hmono.
Qed.

Lemma task_progress_invariant_witness :
  let w1 := fst (Worker.update_task_progress "t" three_files_done) in
  exists t', task_row w1 "t" = Some t' /\
    task_total_files t' = task_total_files (task_t TaskStatus.PROCESSING 3 0) /\
    task_processed_files t' = finished_files three_files_done "t" /\
    task_progress t' = progress_of (task_processed_files t') (task_total_files t') /\
    (all_files three_files_done "t" <= task_total_files (task_t TaskStatus.PROCESSING 3 0) ->
       task_processed_files t' <= task_total_files t') /\
    (forall fid s, s ∈ [FileStatus.COMPLETED; FileStatus.FAILED] ->
       let w2 := set_files (map (fun g => if String.eqb (file_id g) fid
                                          then set_file_status s g else g) (files w1)) w1 in
       exists t'', task_row (fst (Worker.update_task_progress "t" w2)) "t" = Some t'' /\
         task_processed_files t' <= task_processed_files t'').
Proof.
  exact (task_progress_invariant three_files_done "t" (task_t TaskStatus.PROCESSING 3 0) eq_refl).
Defined.

(** C10 (violation count of a File, any verdict): [update_file_violation_count]
    sets the File's violation_count to the number of Result rows of the
    File, whatever their verdicts (relabelling every verdict gives the same
    count); so a File with one Result of any verdict, compliant included,
    gets violation_count > 0, and the next aggregation of its Task records a
    Task-level violation_count > 0. *)
Theorem violation_count_any_verdict (w : World) (fid : string) (f : ReviewFile)
  (Hrow : file_row w fid = Some f) :
  let '(w', r) := FileService.update_file_violation_count fid w in
  exists f', r = Ok f' /\ file_row w' fid = Some f' /\
    file_violation_count f'
      = Z.of_nat (length (List.filter (fun x => String.eqb (result_file_id x) fid) (results w))) /\
    (forall g : ReviewResult -> ViolationResult.t,
       option_map file_violation_count
         (file_row (fst (FileService.update_file_violation_count fid
            (set_results (map (fun x => mkResult (result_file_id x) (g x)) (results w)) w))) fid)
       = Some (file_violation_count f')) /\
    ((exists x, In x (results w) /\ result_file_id x = fid) ->
       0 < file_violation_count f' /\
       forall t0, task_row w' (file_task_id f) = Some t0 ->
       exists t', task_row (fst (Worker.update_task_progress (file_task_id f) w')) (file_task_id f)
                    = Some t' /\ 0 < task_violation_count t').
Proof.
  pose proof (file_row_id _ _ _ Hrow) as Hid.
  rewrite (update_file_violation_count_ok w fid f Hrow).
  set (f' := vc_row w fid f).
  assert (Hrow' : file_row (fst (put_file f' w)) fid = Some f')
    by (apply (file_row_put w f' fid f); [exact Hrow | exact Hid]).
  exists f'. split; [reflexivity|]. split; [exact Hrow'|]. split; [reflexivity|].
  split.
  - intros g. set (wg := set_results _ w).
    assert (Hg : file_row wg fid = Some f) by exact Hrow.
    rewrite (update_file_violation_count_ok wg fid f Hg). cbn [fst].
    rewrite (file_row_put wg (vc_row wg fid f) fid f Hg Hid). simpl.
    rewrite filter_map_length. reflexivity.
  - intros [x [Hx Hxid]].
    assert (Hpos : 0 < file_violation_count f').
    { simpl. assert (Hin : In x (List.filter (fun x => String.eqb (result_file_id x) fid) (results w))).
      { apply List.filter_In. split; [exact Hx|]. rewrite Hxid. apply String.eqb_refl. }
      destruct (List.filter _ _); [destruct Hin|]. simpl. lia. }
    split; [exact Hpos|].
    intros t0 Ht0.
    destruct (agg_spec _ _ t0 Ht0) as (_ & _ & _ & _ & t' & Hr' & _ & _ & _ & Hv & _).
    exists t'. split; [exact Hr'|]. rewrite Hv.
    apply (count_files_pos _ _ _ f'); [exact (file_row_in _ _ _ Hrow') | reflexivity |].
    apply Z.ltb_lt. exact Hpos.
Qed.

Lemma violation_count_any_verdict_witness :
  let '(w', r) := FileService.update_file_violation_count "a" compliant_only in
  exists f', r = Ok f' /\ file_row w' "a" = Some f' /\
    file_violation_count f'
      = Z.of_nat (length (List.filter (fun x => String.eqb (result_file_id x) "a")
                            (results compliant_only))) /\
    (forall g : ReviewResult -> ViolationResult.t,
       option_map file_violation_count
         (file_row (fst (FileService.update_file_violation_count "a"
            (set_results (map (fun x => mkResult (result_file_id x) (g x))
                            (results compliant_only)) compliant_only))) "a")
       = Some (file_violation_count f')) /\
    ((exists x, In x (results compliant_only) /\ result_file_id x = "a") ->
       0 < file_violation_count f' /\
       forall t0, task_row w' (file_task_id (file_in "a" FileStatus.COMPLETED)) = Some t0 ->
       exists t', task_row (fst (Worker.update_task_progress
                                   (file_task_id (file_in "a" FileStatus.COMPLETED)) w'))
                    (file_task_id (file_in "a" FileStatus.COMPLETED)) = Some t' /\
                  0 < task_violation_count t').
Proof.
  exact (violation_count_any_verdict compliant_only "a" (file_in "a" FileStatus.COMPLETED) eq_refl).
Defined.

End Claims.

(* ===================================================================== *)
(** * Further properties of the code *)
(* ===================================================================== *)

Module Extras.
Import Lease LeaseFacts Model Rows Aggregate Commit DbFacts KeepFacts Scenarios.

(** Decides a membership or comparison on closed values. *)
Ltac decide_closed := apply (bool_decide_unpack _); vm_compute; exact I.

(** X1 ([process_review_file], [file_lock]): whatever the file, its status
    and the outcome of the pipeline, a run that finds the file lock free
    leaves the lease store as it was, minus the file's lock key: the lock is
    released on every path, including the failure handler, and no other
    lease is touched. *)
Theorem process_review_file_releases_lock w fid tid token o :
  redis_get (cache w) (file_lock_key fid) (now w) = None ->
  cache (fst (Worker.process_review_file fid tid token o w))
    = delete (file_lock_key fid) (cache w) /\
  now (fst (Worker.process_review_file fid tid token o w)) = now w.
Proof.
  intros Hlock. unfold Worker.process_review_file.
  apply try_file_lock_free; [| | exact Hlock].
  - unfold Worker.process_document_file, Worker.process_image_file,
      Worker.process_video_file, Worker.process_text_file.
    pose proof keeps_get_file. pose proof keeps_update_file_status.
    pose proof keeps_type_handler. pose proof keeps_update_vc. pose proof keeps_agg.
    keeps_tac.
  - intros e. pose proof keeps_update_file_status. pose proof keeps_agg. keeps_tac.
Qed.

Lemma process_review_file_releases_lock_witness :
  redis_get (cache one_pending) (file_lock_key "a") (now one_pending) = None /\
  cache (fst (Worker.process_review_file "a" "t" "tok" (Worker.PipeOk []) one_pending))
    = delete (file_lock_key "a") (cache one_pending) /\
  now (fst (Worker.process_review_file "a" "t" "tok" (Worker.PipeOk []) one_pending))
    = now one_pending.
Proof.
  split; [reflexivity|]. apply process_review_file_releases_lock. reflexivity.
Defined.

(** X2 ([process_review_file], [file_lock]): when another worker holds a
    live lease on the file, the run changes nothing (no row, no lease) and
    returns the skip for a file being processed by another worker. *)
Theorem process_review_file_busy w fid tid token o v :
  redis_get (cache w) (file_lock_key fid) (now w) = Some v ->
  Worker.process_review_file fid tid token o w
    = (w, Ok (Worker.Skipped "file is being processed by another worker")).
Proof.
  intros Hlock. unfold Worker.process_review_file, Worker.with_file_lock, try_except.
  cbv [mbind M_bind get modify mret M_ret]. cbv zeta.
  unfold redis_set_nx_ex at 1. rewrite Hlock. reflexivity.
Qed.

Lemma process_review_file_busy_witness :
  let w := set_cache (<[file_lock_key "a" := ("other", 1000)]> ∅) one_pending in
  redis_get (cache w) (file_lock_key "a") (now w) = Some "other" /\
  Worker.process_review_file "a" "t" "tok" (Worker.PipeOk []) w
    = (w, Ok (Worker.Skipped "file is being processed by another worker")).
Proof.
  cbv zeta. split; [reflexivity|]. apply (process_review_file_busy _ _ _ _ _ "other").
  reflexivity.
Defined.

(** [List.find] through a map that keeps the predicate and fixes what it rejects... *)
Lemma find_map_keep {A} (P : A -> bool) (g : A -> A) (l : list A) :
  (forall x, P (g x) = P x) -> (forall x, P x = true -> g x = x) ->
  List.find P (map g l) = List.find P l.
Proof.
  intros Hp Hg. induction l as [|x l IH]; simpl; [reflexivity|].
  rewrite Hp. destruct (P x) eqn:E; [rewrite (Hg x E); reflexivity | exact IH].
Qed.

(** ... and through a row replacement on another id. *)
Lemma task_row_put_other w t tid :
  task_id t <> tid ->
  task_row (fst (put_task t w)) tid = task_row w tid.
Proof.
  intros Hne. unfold task_row, put_task, modify. cbn.
  induction (tasks w) as [|x l IH]; simpl; [reflexivity|].
  destruct (String.eqb (task_id x) (task_id t)) eqn:E; simpl.
  - apply String.eqb_eq in E.
    destruct (String.eqb (task_id t) tid) eqn:E1; [apply String.eqb_eq in E1; congruence|].
    rewrite E, E1. exact IH.
  - destruct (String.eqb (task_id x) tid); [reflexivity | exact IH].
Qed.

(** The results kept by the bulk deletes of [recheck_task] and [delete_task]. *)
Lemma filter_task_results w tid x :
  In x (List.filter (fun r => negb (existsb (String.eqb (result_file_id r))
                                        (TaskService.task_file_ids w tid))) (results w)) <->
  In x (results w) /\
  ~ (exists f, In f (files w) /\ file_task_id f = tid /\ file_id f = result_file_id x).
Proof.
  rewrite List.filter_In, Bool.negb_true_iff, <- Bool.not_true_iff_false, List.existsb_exists.
  unfold TaskService.task_file_ids. split.
  - intros [Hin Hno]. split; [exact Hin|]. intros (f & Hf & Ht & Hid).
    apply Hno. exists (file_id f). split.
    + apply List.in_map, List.filter_In. split; [exact Hf | apply String.eqb_eq; exact Ht].
    + apply String.eqb_eq. congruence.
  - intros [Hin Hno]. split; [exact Hin|]. intros (i & Hi & Heq).
    apply List.in_map_iff in Hi as (f & <- & Hf). apply List.filter_In in Hf as [Hf Ht].
    apply Hno. exists f. apply String.eqb_eq in Ht, Heq. auto.
Qed.

(** X3 ([recheck_task]): a task that is neither completed nor failed is
    refused with a business error and nothing changes. *)
Theorem recheck_task_refused w tid t0 :
  task_row w tid = Some t0 ->
  task_status t0 ∉ [TaskStatus.COMPLETED; TaskStatus.FAILED] ->
  exists msg, TaskService.recheck_task tid w = (w, Raise (BusinessError msg)).
Proof.
  intros Hrow Hst. unfold TaskService.recheck_task.
  rewrite (bind_ok _ _ w w t0 (get_task_ok w tid t0 Hrow)).
  rewrite (bool_decide_eq_true_2 _ Hst). eexists. reflexivity.
Qed.

Lemma recheck_task_refused_witness :
  task_row one_pending "t" = Some (task_t TaskStatus.PROCESSING 1 0) /\
  (task_status (task_t TaskStatus.PROCESSING 1 0) ∉ [TaskStatus.COMPLETED; TaskStatus.FAILED]) /\
  (exists msg, TaskService.recheck_task "t" one_pending = (one_pending, Raise (BusinessError msg))).
Proof.
  split; [reflexivity|]. split; [decide_closed |].
  apply (recheck_task_refused _ _ (task_t TaskStatus.PROCESSING 1 0)); [reflexivity | decide_closed].
Defined.

(** X4 ([recheck_task]): on a completed or failed task it returns [True];
    the task row is reset to pending (progress, processed files and
    violation count 0, no error, no start or completion time, updated now)
    with its total kept and other tasks untouched; every file of the task is
    pending again with progress 0, no error and no processing time, but its
    [violation_count] is not reset; other files are untouched; and exactly
    the results of the task's files are deleted. *)
Theorem recheck_task_resets w tid t0 :
  task_row w tid = Some t0 ->
  task_status t0 ∈ [TaskStatus.COMPLETED; TaskStatus.FAILED] ->
  let '(w', r) := TaskService.recheck_task tid w in
  r = Ok true /\
  task_row w' tid = Some (mkTask tid TaskStatus.PENDING 0 None (task_total_files t0) 0 0
                            None None (Some (now w))) /\
  (forall tid', tid' <> tid -> task_row w' tid' = task_row w tid') /\
  length (files w') = length (files w) /\
  (forall i f, files w !! i = Some f ->
     exists f', files w' !! i = Some f' /\
       file_id f' = file_id f /\ file_task_id f' = file_task_id f /\
       file_violation_count f' = file_violation_count f /\
       (file_task_id f = tid ->
          file_status f' = FileStatus.PENDING /\ file_progress f' = 0 /\
          file_error_message f' = None /\ file_processed_at f' = None) /\
       (file_task_id f <> tid -> f' = f)) /\
  (forall x, In x (results w') <->
     In x (results w) /\
     ~ (exists f, In f (files w) /\ file_task_id f = tid /\ file_id f = result_file_id x)) /\
  cache w' = cache w /\ now w' = now w.
Proof.
  intros Hrow Hst. pose proof (task_row_id _ _ _ Hrow) as Hid.
  unfold TaskService.recheck_task.
  rewrite (bind_ok _ _ w w t0 (get_task_ok w tid t0 Hrow)).
  rewrite (bool_decide_eq_false_2 _ (fun H => H Hst)).
  set (t1 := mkTask (task_id t0) TaskStatus.PENDING 0 None (task_total_files t0) 0 0
               None None (Some (now w))).
  cbv [mbind M_bind get modify mret M_ret]. cbv beta iota.
  assert (Ht1 : task_row (fst (put_task t1 w)) tid = Some t1)
    by (apply (task_row_put w t1 tid t0 Hrow); exact Hid).
  unfold put_task, modify in Ht1. cbn in Ht1 |- *.
  repeat split.
  - unfold task_row in Ht1. subst t1. cbn in Ht1. rewrite Hid in Ht1 |- *. exact Ht1.
  - intros tid' Hne. pose proof (task_row_put_other w t1 tid') as H.
    unfold task_row, put_task, modify in H |- *. cbn in H |- *. apply H.
    subst t1; cbn. rewrite Hid. auto.
  - apply List.length_map.
  - intros i f Hi. rewrite list_map_lookup, Hi. cbn.
    eexists; split; [reflexivity|].
    destruct (String.eqb (file_task_id f) tid) eqn:E.
    + apply String.eqb_eq in E. cbn. repeat split; auto. intros Hn; exfalso; exact (Hn E).
    + apply String.eqb_neq in E. repeat split; auto. all: congruence.
  - match goal with H : In x _ |- _ => apply (filter_task_results w tid x) in H; apply H end.
  - match goal with H : In x _ |- _ => apply (filter_task_results w tid x) in H; apply H end.
  - apply (filter_task_results w tid x).
Qed.

Lemma recheck_task_resets_witness :
  task_row reopened "t" = Some (task_t TaskStatus.COMPLETED 2 2) /\
  (task_status (task_t TaskStatus.COMPLETED 2 2) ∈ [TaskStatus.COMPLETED; TaskStatus.FAILED]) /\
  let '(w', r) := TaskService.recheck_task "t" reopened in
  r = Ok true /\
  task_row w' "t" = Some (mkTask "t" TaskStatus.PENDING 0 None
                            (task_total_files (task_t TaskStatus.COMPLETED 2 2)) 0 0
                            None None (Some (now reopened))) /\
  (forall tid', tid' <> "t" -> task_row w' tid' = task_row reopened tid') /\
  length (files w') = length (files reopened) /\
  (forall i f, files reopened !! i = Some f ->
     exists f', files w' !! i = Some f' /\
       file_id f' = file_id f /\ file_task_id f' = file_task_id f /\
       file_violation_count f' = file_violation_count f /\
       (file_task_id f = "t" ->
          file_status f' = FileStatus.PENDING /\ file_progress f' = 0 /\
          file_error_message f' = None /\ file_processed_at f' = None) /\
       (file_task_id f <> "t" -> f' = f)) /\
  (forall x, In x (results w') <->
     In x (results reopened) /\
     ~ (exists f, In f (files reopened) /\ file_task_id f = "t" /\ file_id f = result_file_id x)) /\
  cache w' = cache reopened /\ now w' = now reopened.
Proof.
  split; [reflexivity|]. split; [decide_closed |].
  apply (recheck_task_resets reopened "t" (task_t TaskStatus.COMPLETED 2 2));
    [reflexivity | decide_closed].
Defined.

Lemma find_filter_keep {A} (P Q : A -> bool) (l : list A) :
  (forall x, P x = true -> Q x = true) -> List.find P (List.filter Q l) = List.find P l.
Proof.
  intros H. induction l as [|x l IH]; simpl; [reflexivity|].
  destruct (Q x) eqn:Eq; simpl.
  - destruct (P x); [reflexivity | exact IH].
  - destruct (P x) eqn:Ep; [rewrite (H x Ep) in Eq; discriminate | exact IH].
Qed.

Lemma find_filter_none {A} (P : A -> bool) (l : list A) :
  List.find P (List.filter (fun x => negb (P x)) l) = None.
Proof.
  induction l as [|x l IH]; simpl; [reflexivity|].
  destruct (P x) eqn:E; simpl; [exact IH | rewrite E; exact IH].
Qed.

(** X5 ([delete_task]): a task in processing cannot be deleted: a business
    error is raised and nothing changes. *)
Theorem delete_task_refused w tid t0 :
  task_row w tid = Some t0 -> task_status t0 = TaskStatus.PROCESSING ->
  exists msg, TaskService.delete_task tid w = (w, Raise (BusinessError msg)).
Proof.
  intros Hrow Hst. unfold TaskService.delete_task.
  rewrite (bind_ok _ _ w w t0 (get_task_ok w tid t0 Hrow)).
  rewrite (bool_decide_eq_true_2 _ Hst). eexists. reflexivity.
Qed.

Lemma delete_task_refused_witness :
  task_row one_pending "t" = Some (task_t TaskStatus.PROCESSING 1 0) /\
  task_status (task_t TaskStatus.PROCESSING 1 0) = TaskStatus.PROCESSING /\
  (exists msg, TaskService.delete_task "t" one_pending = (one_pending, Raise (BusinessError msg))).
Proof.
  split; [reflexivity|]. split; [reflexivity|].
  apply (delete_task_refused _ _ (task_t TaskStatus.PROCESSING 1 0)); reflexivity.
Defined.

(** X6 ([delete_task]): any other task is deleted with everything it owns:
    the call returns [True], the task row is gone and other tasks are
    untouched, the remaining files are exactly those of other tasks, and the
    remaining results exactly those not owned by a file of the task. *)
Theorem delete_task_cascades w tid t0 :
  task_row w tid = Some t0 -> task_status t0 <> TaskStatus.PROCESSING ->
  let '(w', r) := TaskService.delete_task tid w in
  r = Ok true /\
  task_row w' tid = None /\
  (forall tid', tid' <> tid -> task_row w' tid' = task_row w tid') /\
  (forall f, In f (files w') <-> In f (files w) /\ file_task_id f <> tid) /\
  (forall x, In x (results w') <->
     In x (results w) /\
     ~ (exists f, In f (files w) /\ file_task_id f = tid /\ file_id f = result_file_id x)) /\
  cache w' = cache w /\ now w' = now w.
Proof.
  intros Hrow Hst. unfold TaskService.delete_task.
  rewrite (bind_ok _ _ w w t0 (get_task_ok w tid t0 Hrow)).
  rewrite (bool_decide_eq_false_2 _ Hst).
  cbv [mbind M_bind get modify mret M_ret]. cbv beta iota. cbn.
  split; [reflexivity|]. split; [|split; [|split; [|split; [|split; reflexivity]]]].
  - unfold task_row. cbn. apply (find_filter_none (fun t => String.eqb (task_id t) tid)).
  - intros tid' Hne. unfold task_row. cbn. apply find_filter_keep.
    intros t Ht. apply String.eqb_eq in Ht. subst tid'.
    apply Bool.negb_true_iff, String.eqb_neq. exact Hne.
  - intros f. rewrite List.filter_In, Bool.negb_true_iff, String.eqb_neq. reflexivity.
  - intros x. apply filter_task_results.
Qed.

Lemma delete_task_cascades_witness :
  task_row reopened "t" = Some (task_t TaskStatus.COMPLETED 2 2) /\
  task_status (task_t TaskStatus.COMPLETED 2 2) <> TaskStatus.PROCESSING /\
  let '(w', r) := TaskService.delete_task "t" reopened in
  r = Ok true /\
  task_row w' "t" = None /\
  (forall tid', tid' <> "t" -> task_row w' tid' = task_row reopened tid') /\
  (forall f, In f (files w') <-> In f (files reopened) /\ file_task_id f <> "t") /\
  (forall x, In x (results w') <->
     In x (results reopened) /\
     ~ (exists f, In f (files reopened) /\ file_task_id f = "t" /\ file_id f = result_file_id x)) /\
  cache w' = cache reopened /\ now w' = now reopened.
Proof.
  split; [reflexivity|]. split; [discriminate|].
  apply (delete_task_cascades reopened "t" (task_t TaskStatus.COMPLETED 2 2));
    [reflexivity | discriminate].
Defined.

Lemma file_row_put_other w f fid :
  file_id f <> fid -> file_row (fst (put_file f w)) fid = file_row w fid.
Proof.
  intros Hne. unfold file_row, put_file, modify. cbn.
  induction (files w) as [|x l IH]; simpl; [reflexivity|].
  destruct (String.eqb (file_id x) (file_id f)) eqn:E; simpl.
  - apply String.eqb_eq in E.
    destruct (String.eqb (file_id f) fid) eqn:E1; [apply String.eqb_eq in E1; congruence|].
    rewrite E, E1. exact IH.
  - destruct (String.eqb (file_id x) fid); [reflexivity | exact IH].
Qed.

(** X7 ([delete_file]): a file in processing cannot be deleted: a business
    error is raised and nothing changes. *)
Theorem delete_file_refused w fid f :
  file_row w fid = Some f -> file_status f = FileStatus.PROCESSING ->
  exists msg, FileService.delete_file fid w = (w, Raise (BusinessError msg)).
Proof.
  intros Hrow Hst. unfold FileService.delete_file.
  rewrite (bind_ok _ _ w w f (get_file_ok w fid f Hrow)).
  rewrite (bool_decide_eq_true_2 _ Hst). eexists. reflexivity.
Qed.

Lemma delete_file_refused_witness :
  file_row cancel_world "c" = Some (file_in "c" FileStatus.PROCESSING) /\
  file_status (file_in "c" FileStatus.PROCESSING) = FileStatus.PROCESSING /\
  (exists msg, FileService.delete_file "c" cancel_world = (cancel_world, Raise (BusinessError msg))).
Proof.
  split; [reflexivity|]. split; [reflexivity|].
  apply (delete_file_refused _ _ (file_in "c" FileStatus.PROCESSING)); reflexivity.
Defined.

(** X8 ([delete_file]): any other file is deleted with its results: the
    call returns [True], no row with that id is left, the other files and
    the other results stay, and the task rows are not touched (in
    particular the task's [total_files] is not decreased). *)
Theorem delete_file_removes w fid f :
  file_row w fid = Some f -> file_status f <> FileStatus.PROCESSING ->
  let '(w', r) := FileService.delete_file fid w in
  r = Ok true /\
  file_row w' fid = None /\
  (forall g, In g (files w') <-> In g (files w) /\ file_id g <> fid) /\
  (forall x, In x (results w') <-> In x (results w) /\ result_file_id x <> fid) /\
  tasks w' = tasks w /\ cache w' = cache w /\ now w' = now w.
Proof.
  intros Hrow Hst. unfold FileService.delete_file.
  rewrite (bind_ok _ _ w w f (get_file_ok w fid f Hrow)).
  rewrite (bool_decide_eq_false_2 _ Hst).
  cbv [mbind M_bind get modify mret M_ret]. cbv beta iota. cbn.
  split; [reflexivity|]. split; [|split; [|split; [|split; [|split; reflexivity]]]].
  - unfold file_row. cbn. apply (find_filter_none (fun g => String.eqb (file_id g) fid)).
  - intros g. rewrite List.filter_In, Bool.negb_true_iff, String.eqb_neq. reflexivity.
  - intros x. rewrite List.filter_In, Bool.negb_true_iff, String.eqb_neq. reflexivity.
  - reflexivity.
Qed.

Lemma delete_file_removes_witness :
  file_row reopened "a" = Some (file_in "a" FileStatus.COMPLETED) /\
  file_status (file_in "a" FileStatus.COMPLETED) <> FileStatus.PROCESSING /\
  let '(w', r) := FileService.delete_file "a" reopened in
  r = Ok true /\
  file_row w' "a" = None /\
  (forall g, In g (files w') <-> In g (files reopened) /\ file_id g <> "a") /\
  (forall x, In x (results w') <-> In x (results reopened) /\ result_file_id x <> "a") /\
  tasks w' = tasks reopened /\ cache w' = cache reopened /\ now w' = now reopened.
Proof.
  split; [reflexivity|]. split; [discriminate|].
  apply (delete_file_removes reopened "a" (file_in "a" FileStatus.COMPLETED));
    [reflexivity | discriminate].
Defined.

(** X9 ([update_file_status]): the row gets the new status and the current
    time as [updated_at]; a given progress is clamped to [0, 100] and
    COMPLETED forces progress 100 and sets [processed_at]; a missing
    progress or error message keeps the old value (an error message is
    never cleared); the file's task, type and violation count are kept and
    the other files' rows are untouched. *)
Theorem update_file_status_row w fid st p e f :
  file_row w fid = Some f ->
  let '(w', r) := FileService.update_file_status fid st p e w in
  exists f', r = Ok f' /\ file_row w' fid = Some f' /\
    file_status f' = st /\ file_updated_at f' = Some (now w) /\
    (st = FileStatus.COMPLETED -> file_progress f' = 100 /\ file_processed_at f' = Some (now w)) /\
    (st <> FileStatus.COMPLETED ->
       file_processed_at f' = file_processed_at f /\
       file_progress f' = match p with
                          | Some q => Z.max 0 (Z.min 100 q)
                          | None => file_progress f
                          end) /\
    (p <> None -> 0 <= file_progress f' <= 100) /\
    file_error_message f' = match e with Some _ => e | None => file_error_message f end /\
    file_task_id f' = file_task_id f /\ file_type f' = file_type f /\
    file_violation_count f' = file_violation_count f /\
    (forall g, g <> fid -> file_row w' g = file_row w g) /\
    tasks w' = tasks w /\ results w' = results w.
Proof.
  intros Hrow. pose proof (file_row_id _ _ _ Hrow) as Hid.
  rewrite (update_file_status_ok w fid st p e f Hrow).
  set (f' := status_row w st p e f).
  assert (Hf : file_id f' = fid /\ file_status f' = st /\ file_updated_at f' = Some (now w) /\
    (st = FileStatus.COMPLETED -> file_progress f' = 100 /\ file_processed_at f' = Some (now w)) /\
    (st <> FileStatus.COMPLETED ->
       file_processed_at f' = file_processed_at f /\
       file_progress f' = match p with
                          | Some q => Z.max 0 (Z.min 100 q)
                          | None => file_progress f
                          end) /\
    (p <> None -> 0 <= file_progress f' <= 100) /\
    file_error_message f' = match e with Some _ => e | None => file_error_message f end /\
    file_task_id f' = file_task_id f /\ file_type f' = file_type f /\
    file_violation_count f' = file_violation_count f).
  { subst f'. unfold status_row.
    destruct (bool_decide (st = FileStatus.COMPLETED)) eqn:Ec;
      [apply bool_decide_eq_true_1 in Ec | apply bool_decide_eq_false_1 in Ec];
      destruct p as [q|]; destruct e as [m|]; cbn;
      repeat split; auto; try contradiction; try lia; intros; congruence. }
  destruct Hf as (Hid' & H1 & H2 & H3 & H4 & H5 & H6 & H7 & H8 & H9).
  exists f'. split; [reflexivity|]. split; [apply (file_row_put w f' fid f Hrow Hid')|].
  refine (conj H1 (conj H2 (conj H3 (conj H4 (conj H5 (conj H6 (conj H7 (conj H8
            (conj H9 (conj _ (conj eq_refl eq_refl))))))))))).
  intros g Hg. apply file_row_put_other. congruence.
Qed.

Lemma update_file_status_row_witness :
  file_row restart_world "b" =
    Some (mkFile "b" "t" FileType.IMAGE FileStatus.FAILED 0 0 (Some "timeout") None (Some 50)) /\
  let '(w', r) := FileService.update_file_status "b" FileStatus.COMPLETED None None restart_world in
  exists f', r = Ok f' /\ file_row w' "b" = Some f' /\
    file_status f' = FileStatus.COMPLETED /\ file_updated_at f' = Some (now restart_world) /\
    (FileStatus.COMPLETED = FileStatus.COMPLETED ->
       file_progress f' = 100 /\ file_processed_at f' = Some (now restart_world)) /\
    (FileStatus.COMPLETED <> FileStatus.COMPLETED ->
       file_processed_at f' = None /\ file_progress f' = 0) /\
    (@None Z <> None -> 0 <= file_progress f' <= 100) /\
    file_error_message f' = Some "timeout" /\
    file_task_id f' = "t" /\ file_type f' = FileType.IMAGE /\
    file_violation_count f' = 0 /\
    (forall g, g <> "b" -> file_row w' g = file_row restart_world g) /\
    tasks w' = tasks restart_world /\ results w' = results restart_world.
Proof.
  split; [reflexivity|].
  exact (update_file_status_row restart_world "b" FileStatus.COMPLETED None None
           (mkFile "b" "t" FileType.IMAGE FileStatus.FAILED 0 0 (Some "timeout") None (Some 50))
           eq_refl).
Defined.

Lemma prefix_app_py_in (a b s : string) :
  String.prefix (a ++ b) s = true -> Worker.py_in b s = true.
Proof.
  revert s. induction a as [|c a IH]; intros s H.
  - change (String.prefix b s = true) in H. destruct s; cbn [Worker.py_in]; rewrite H; reflexivity.
  - destruct s as [|c' s]; [discriminate|]. simpl in H.
    destruct (Ascii.ascii_dec c c'); [|discriminate].
    simpl. rewrite (IH s H). apply Bool.orb_true_r.
Qed.

(** A needle found in a string is found with any prefix of it removed. *)
Lemma py_in_app_r (a b s : string) :
  Worker.py_in (a ++ b) s = true -> Worker.py_in b s = true.
Proof.
  induction s as [|c s IH]; intros H; cbn [Worker.py_in] in H.
  - apply Bool.orb_true_iff in H as [H|H]; [|discriminate].
    exact (prefix_app_py_in a b _ H).
  - apply Bool.orb_true_iff in H as [H|H].
    + exact (prefix_app_py_in a b _ H).
    + simpl. rewrite (IH H). apply Bool.orb_true_r.
Qed.

Lemma py_in_buhegui_hegui s :
  Worker.py_in "不合规" s = true -> Worker.py_in "合规" s = true.
Proof. apply (py_in_app_r "不" "合规" s). Qed.

(** X12 ([_get_violation_result_enum]): in the fuzzy matching, a string
    that is not a key of [result_map] (as given or lowered) and contains
    "不合规" ("non-compliant") is classified COMPLIANT, because the test for
    "合规" ("compliant") comes first and matches inside it. *)
Theorem violation_enum_buhegui_is_compliant lower s :
  Worker.result_map s = None -> Worker.result_map (lower s) = None ->
  Worker.py_in "不合规" s = true ->
  Worker.get_violation_result_enum lower s = ViolationResult.COMPLIANT.
Proof.
  intros H1 H2 H3. unfold Worker.get_violation_result_enum.
  destruct s as [|c s']; [discriminate|]. cbn [String.eqb].
  rewrite H1, H2, (py_in_buhegui_hegui _ H3). reflexivity.
Qed.

Lemma violation_enum_buhegui_is_compliant_witness :
  Worker.result_map "不合规内容" = None /\
  Worker.result_map ((fun x => x) "不合规内容") = None /\
  Worker.py_in "不合规" "不合规内容" = true /\
  Worker.get_violation_result_enum (fun x => x) "不合规内容" = ViolationResult.COMPLIANT.
Proof.
  split; [reflexivity|]. split; [reflexivity|]. split; [reflexivity|].
  apply violation_enum_buhegui_is_compliant; reflexivity.
Defined.

(** X13 ([_get_violation_result_enum]): the verdict is NON_COMPLIANT
    exactly when the string is non-empty and either maps to NON_COMPLIANT
    in [result_map] (as given, or else lowered), or is no key, contains
    neither "合规" nor (lowered) "compliant", and contains "违规" or
    (lowered) "non"; the test for "不合规" in that branch never decides. *)
Theorem violation_enum_non_compliant lower s :
  Worker.get_violation_result_enum lower s = ViolationResult.NON_COMPLIANT <->
  s <> "" /\
  (Worker.result_map s = Some ViolationResult.NON_COMPLIANT \/
   (Worker.result_map s = None /\
    Worker.result_map (lower s) = Some ViolationResult.NON_COMPLIANT) \/
   (Worker.result_map s = None /\ Worker.result_map (lower s) = None /\
    Worker.py_in "合规" s = false /\ Worker.py_in "compliant" (lower s) = false /\
    (Worker.py_in "违规" s = true \/ Worker.py_in "non" (lower s) = true))).
Proof.
  pose proof (py_in_buhegui_hegui s) as Hsub.
  unfold Worker.get_violation_result_enum.
  destruct (String.eqb s "") eqn:E0; [apply String.eqb_eq in E0 | apply String.eqb_neq in E0].
  { split; [discriminate | intros [H _]; contradiction]. }
  destruct (Worker.result_map s) as [[]|]; [intuition congruence .. |].
  destruct (Worker.result_map (lower s)) as [[]|]; [intuition congruence .. |].
  destruct (Worker.py_in "合规" s); destruct (Worker.py_in "compliant" (lower s));
  destruct (Worker.py_in "不合规" s); destruct (Worker.py_in "违规" s);
  destruct (Worker.py_in "non" (lower s)); cbn; intuition congruence.
Qed.

Lemma status_counts_sum (l : list ReviewFile) tid :
  fold_right Z.add 0
    (map (fun st => Z.of_nat (length (List.filter
            (fun f => String.eqb (file_task_id f) tid && bool_decide (file_status f = st)) l)))
         TaskService.all_file_statuses)
  = Z.of_nat (length (List.filter (fun f => String.eqb (file_task_id f) tid && true) l)).
Proof.
  induction l as [|f l IH]; [reflexivity|].
  cbn [List.filter]. unfold TaskService.all_file_statuses in *. cbn [map fold_right] in *.
  destruct (String.eqb (file_task_id f) tid); cbn [andb] in *; [|exact IH].
  destruct (file_status f); cbn [length];
    repeat match goal with |- context [bool_decide ?P] =>
      first [rewrite (bool_decide_eq_true_2 P) by reflexivity
            |rewrite (bool_decide_eq_false_2 P) by discriminate] end;
    cbn [length]; lia.
Qed.

(** X20 ([get_task_statistics]): for an existing task the statistics list
    every file status once, in declaration order; the counts add up to the
    number of files of the task; the completion rate is the task's
    progress; the duration is given exactly when both the start and the
    completion time are set. Nothing is written. *)
Theorem task_statistics_counts w tid t0 :
  task_row w tid = Some t0 ->
  let '(w', r) := TaskService.get_task_statistics tid w in
  w' = w /\
  exists st, r = Ok st /\
    map fst (TaskService.file_status_counts st) = TaskService.all_file_statuses /\
    fold_right Z.add 0 (map snd (TaskService.file_status_counts st)) = all_files w tid /\
    TaskService.completion_rate st = task_progress t0 /\
    (TaskService.processing_duration st <> None <->
       task_started_at t0 <> None /\ task_completed_at t0 <> None).
Proof.
  intros Hrow. unfold TaskService.get_task_statistics.
  rewrite (bind_ok _ _ w w t0 (get_task_ok w tid t0 Hrow)).
  cbv [mbind M_bind get mret M_ret]. split; [reflexivity|].
  eexists. split; [reflexivity|]. cbn [TaskService.file_status_counts
    TaskService.completion_rate TaskService.processing_duration].
  split; [rewrite List.map_map; reflexivity|].
  split.
  - rewrite List.map_map. cbn [snd]. unfold all_files, count_files.
    apply status_counts_sum.
  - split; [reflexivity|].
    destruct (task_started_at t0), (task_completed_at t0); cbn; split; intros H;
      first [ split; discriminate | discriminate | (exfalso; apply H; reflexivity)
            | (destruct H as [H1 H2]; exfalso; first [apply H1 | apply H2]; reflexivity) ].
Qed.

Lemma task_statistics_counts_witness :
  task_row three_files_done "t" = Some (task_t TaskStatus.PROCESSING 3 0) /\
  let '(w', r) := TaskService.get_task_statistics "t" three_files_done in
  w' = three_files_done /\
  exists st, r = Ok st /\
    map fst (TaskService.file_status_counts st) = TaskService.all_file_statuses /\
    fold_right Z.add 0 (map snd (TaskService.file_status_counts st)) = all_files three_files_done "t" /\
    TaskService.completion_rate st = task_progress (task_t TaskStatus.PROCESSING 3 0) /\
    (TaskService.processing_duration st <> None <->
       task_started_at (task_t TaskStatus.PROCESSING 3 0) <> None /\
       task_completed_at (task_t TaskStatus.PROCESSING 3 0) <> None).
Proof.
  split; [reflexivity|].
  exact (task_statistics_counts three_files_done "t" (task_t TaskStatus.PROCESSING 3 0) eq_refl).
Defined.

(** X21 ([start_task]): a task in processing, or a task without files,
    is refused with a business error and nothing changes. *)
Theorem start_task_refused w tid t0 :
  task_row w tid = Some t0 ->
  task_status t0 = TaskStatus.PROCESSING \/ all_files w tid = 0 ->
  exists msg, TaskService.start_task tid w = (w, Raise (BusinessError msg)).
Proof.
  intros Hrow Hcase. unfold TaskService.start_task.
  rewrite (bind_ok _ _ w w t0 (get_task_ok w tid t0 Hrow)).
  destruct (bool_decide (task_status t0 ∉ _)) eqn:Eb.
  - eexists. reflexivity.
  - apply bool_decide_eq_false_1 in Eb.
    destruct Hcase as [Hp | H0].
    + exfalso. apply Eb. rewrite Hp. apply (bool_decide_unpack _). vm_compute. exact I.
    + cbv [mbind M_bind get]. unfold all_files in H0. rewrite H0. cbn.
      eexists. reflexivity.
Qed.

Lemma start_task_refused_witness :
  task_row one_pending "t" = Some (task_t TaskStatus.PROCESSING 1 0) /\
  (task_status (task_t TaskStatus.PROCESSING 1 0) = TaskStatus.PROCESSING \/
   all_files one_pending "t" = 0) /\
  exists msg, TaskService.start_task "t" one_pending = (one_pending, Raise (BusinessError msg)).
Proof.
  assert (H : task_status (task_t TaskStatus.PROCESSING 1 0) = TaskStatus.PROCESSING \/
              all_files one_pending "t" = 0) by (left; reflexivity).
  split; [reflexivity|]. split; [exact H|].
  exact (start_task_refused one_pending "t" _ eq_refl H).
Defined.

Lemma get_file_none w fid :
  file_row w fid = None ->
  FileService.get_file_by_id fid w = (w, Raise (NotFoundError ("file not found: " +:+ fid))).
Proof. intros H. unfold FileService.get_file_by_id. cbv [mbind M_bind get]. rewrite H. reflexivity. Qed.

(** X23 ([process_review_file], [file_lock]): for a file id with no row
    and a free lock, the run returns a [Failed] result for that file id
    (with some error message) and changes nothing but removing the lock
    key: no row is written and no task is re-aggregated, since the failure
    handler's own status update fails too and is swallowed. *)
Theorem process_review_file_missing w fid tid token o :
  redis_get (cache w) (file_lock_key fid) (now w) = None ->
  file_row w fid = None ->
  exists msg, Worker.process_review_file fid tid token o w
    = (set_cache (delete (file_lock_key fid) (cache w)) w, Ok (Worker.Failed fid msg)).
Proof.
  intros Hlock Hnone.
  set (w0 := set_cache (<[file_lock_key fid := (token, now w + file_lock_timeout)]> (cache w)) w).
  assert (Hn0 : file_row w0 fid = None) by exact Hnone.
  set (w1 := set_cache (delete (file_lock_key fid) (cache w)) w).
  assert (Hn1 : file_row w1 fid = None) by exact Hnone.
  assert (Hrel : fst (release_script (cache w0) (file_lock_key fid) token (now w0))
                 = delete (file_lock_key fid) (cache w)).
  { assert (Hc0 : cache w0 = <[file_lock_key fid := (token, now w + file_lock_timeout)]> (cache w))
      by reflexivity.
    assert (Hw0 : now w0 = now w) by reflexivity.
    unfold release_script. rewrite Hc0, Hw0.
    rewrite (redis_get_live _ _ token (now w + file_lock_timeout));
      [| apply lookup_insert_eq | unfold file_lock_timeout; lia].
    rewrite String.eqb_refl, delete_insert_eq. reflexivity. }
  unfold Worker.process_review_file, Worker.with_file_lock, try_except.
  cbv [mbind M_bind get modify mret M_ret raise]. cbv zeta.
  unfold redis_set_nx_ex at 1. rewrite Hlock. cbn [negb].
  fold w0. rewrite (get_file_none w0 fid Hn0). cbv beta iota.
  rewrite Hrel. fold w1.
  unfold FileService.update_file_status. cbv [mbind M_bind].
  rewrite get_file_none by exact Hnone. eexists. reflexivity.
Qed.

Lemma process_review_file_missing_witness :
  redis_get (cache one_pending) (file_lock_key "z") (now one_pending) = None /\
  file_row one_pending "z" = None /\
  exists msg, Worker.process_review_file "z" "t" "tok" (Worker.PipeOk []) one_pending
    = (set_cache (delete (file_lock_key "z") (cache one_pending)) one_pending,
       Ok (Worker.Failed "z" msg)).
Proof.
  split; [reflexivity|]. split; [reflexivity|].
  apply process_review_file_missing; reflexivity.
Defined.

End Extras.

Module QueueExtras.
Import Lease LeaseFacts Model Rows Commit DbFacts KeepFacts Scenarios QueueService.

(** X14 ([add_file_to_queue]): when the file's lock is live or the broker
    refuses the call, it returns [False] and nothing changes; otherwise it
    returns [True], appends one [process_review_file] message under a fresh
    id, leaves the database and every other status record as they were, and
    the file's status record then reads "submitted" with that Celery id and
    the task id. *)
Theorem add_file_to_queue_spec s fid tid ft prio :
  let '(s', r) := add_file_to_queue fid tid ft prio s in
  if is_held (cache (db s)) (file_lock_key fid) (now (db s)) || negb (broker_up s)
  then s' = s /\ r = Ok false
  else
    let id := "celery-" +:+ pretty (N.of_nat (length (jobs s))) in
    r = Ok true /\ db s' = db s /\ revoked s' = revoked s /\
    jobs s' = jobs s ++ [(id, ReviewFileJob fid tid ft)] /\
    (forall k, k <> "file_status:" +:+ fid -> json_store s' !! k = json_store s !! k) /\
    exists d, snd (get_file_status fid s') = Ok (Some d) /\
      dict_get d "status" = Some (JStr "submitted") /\
      dict_get d "celery_task_id" = Some (JStr id) /\
      dict_get d "task_id" = Some (JStr tid).
Proof.
  unfold add_file_to_queue, is_file_processing, delay, QueueService.set_file_status, setex.
  cbv [mbind SM_bind sget smodify mret SM_ret s_try_except sraise].
  destruct (is_held (cache (db s)) (file_lock_key fid) (now (db s))); cbn [orb].
  { split; reflexivity. }
  destruct (broker_up s); cbn [negb]; [|split; reflexivity].
  cbn. split; [reflexivity|]. split; [reflexivity|]. split; [reflexivity|].
  split; [reflexivity|]. split.
  - intros k Hk. apply lookup_insert_ne. congruence.
  - eexists. split.
    + unfold get_file_status, json_get. cbv [mbind SM_bind sget mret SM_ret]. cbn.
      rewrite lookup_insert_eq. cbn.
      rewrite (proj2 (Z.ltb_lt (now (db s)) (now (db s) + 86400)) ltac:(lia)). reflexivity.
    + cbn. split; [reflexivity|]. split; reflexivity.
Qed.

Lemma get_task_status_pure s tid :
  get_task_status tid s = (s, snd (get_task_status tid s)).
Proof. reflexivity. Qed.

Lemma cancel_task_no_id s tid d :
  snd (get_task_status tid s) = Ok (Some d) -> dict_get d "celery_task_id" = None ->
  QueueService.cancel_task tid s = (s, Ok false).
Proof.
  intros Hst Hcid. unfold QueueService.cancel_task, s_try_except.
  unfold mbind at 1, SM_bind at 1. rewrite get_task_status_pure, Hst, Hcid. reflexivity.
Qed.

(** X15 ([QueueService.cancel_task]): with a live status record that holds
    a Celery id and a broker that answers, the call returns [True], revokes
    exactly that id, deletes the task lock key whoever holds it, leaves the
    rows and the queued messages alone, and overwrites the record with a
    bare "cancelled" one; so a second cancel finds no Celery id and returns
    [False] without changing anything. *)
Theorem queue_cancel_task_spec s tid d cid :
  snd (get_task_status tid s) = Ok (Some d) ->
  dict_get d "celery_task_id" = Some cid ->
  broker_up s = true ->
  let '(s', r) := QueueService.cancel_task tid s in
  r = Ok true /\
  revoked s' = revoked s ++ [cid] /\ jobs s' = jobs s /\
  cache (db s') = delete (task_lock_key tid) (cache (db s)) /\
  tasks (db s') = tasks (db s) /\ files (db s') = files (db s) /\
  results (db s') = results (db s) /\ now (db s') = now (db s) /\
  snd (get_task_status tid s')
    = Ok (Some [("status", JStr "cancelled"); ("updated_at", JTime (now (db s)))]) /\
  QueueService.cancel_task tid s' = (s', Ok false).
Proof.
  intros Hst Hcid Hup.
  unfold QueueService.cancel_task at 1. unfold s_try_except at 1.
  unfold mbind at 1, SM_bind at 1. rewrite get_task_status_pure, Hst, Hcid.
  unfold revoke, QueueService.set_task_status, setex.
  cbv [mbind SM_bind sget smodify mret SM_ret sraise]. rewrite Hup. cbn.
  do 8 (split; [reflexivity|]).
  assert (Hget : snd (get_task_status tid
     (mkSys (set_cache (delete (task_lock_key tid) (cache (db s))) (db s))
        (<["task_status:" +:+ tid := ([("status", JStr "cancelled");
                                        ("updated_at", JTime (now (db s)))],
                                       now (db s) + 86400)]> (json_store s))
        (jobs s) (revoked s ++ [cid]) (broker_up s)))
     = Ok (Some [("status", JStr "cancelled"); ("updated_at", JTime (now (db s)))])).
  { unfold get_task_status, json_get. cbv [mbind SM_bind sget mret SM_ret]. cbn.
    rewrite lookup_insert_eq. cbn.
    rewrite (proj2 (Z.ltb_lt (now (db s)) (now (db s) + 86400)) ltac:(lia)). reflexivity. }
  split; [exact Hget|].
  apply (cancel_task_no_id _ _ _ Hget). reflexivity.
Qed.

(** A broker that answers, an empty cache and no status record. *)
Definition queue_sys : Sys := mkSys one_pending ∅ [] [] true.

Lemma queue_cancel_task_spec_witness :
  let s := fst (add_task_to_queue "t" 0 queue_sys) in
  let d := status_record "submitted" 100
             (Some [("celery_task_id", JStr "celery-0"); ("priority", JInt 0);
                    ("processing", JBool true)]) in
  snd (get_task_status "t" s) = Ok (Some d) /\
  dict_get d "celery_task_id" = Some (JStr "celery-0") /\
  broker_up s = true /\
  let '(s', r) := QueueService.cancel_task "t" s in
  r = Ok true /\
  revoked s' = revoked s ++ [JStr "celery-0"] /\ jobs s' = jobs s /\
  cache (db s') = delete (task_lock_key "t") (cache (db s)) /\
  tasks (db s') = tasks (db s) /\ files (db s') = files (db s) /\
  results (db s') = results (db s) /\ now (db s') = now (db s) /\
  snd (get_task_status "t" s')
    = Ok (Some [("status", JStr "cancelled"); ("updated_at", JTime (now (db s)))]) /\
  QueueService.cancel_task "t" s' = (s', Ok false).
Proof.
  cbv zeta.
  assert (H1 : snd (get_task_status "t" (fst (add_task_to_queue "t" 0 queue_sys)))
               = Ok (Some (status_record "submitted" 100
                    (Some [("celery_task_id", JStr "celery-0"); ("priority", JInt 0);
                           ("processing", JBool true)])))) by (vm_compute; reflexivity).
  assert (H2 : dict_get (status_record "submitted" 100
                    (Some [("celery_task_id", JStr "celery-0"); ("priority", JInt 0);
                           ("processing", JBool true)])) "celery_task_id"
               = Some (JStr "celery-0")) by reflexivity.
  assert (H3 : broker_up (fst (add_task_to_queue "t" 0 queue_sys)) = true) by reflexivity.
  split; [exact H1|]. split; [exact H2|]. split; [exact H3|].
  exact (queue_cancel_task_spec _ "t" _ _ H1 H2 H3).
Defined.

(** X16 ([update_progress], [get_progress]): after [update_progress], a
    read of the entity's progress at time [t] gives the record just written
    (the progress clamped to [0, 100], the message and the write time) while
    [t] is less than one hour after the write, and nothing from then on; the
    database is not touched. *)
Theorem progress_round_trip s e p m t :
  let '(s1, r) := update_progress e p m s in
  r = Ok true /\ db s1 = db s /\
  snd (get_progress e (set_db (set_now t (db s1)) s1))
    = Ok (if Z.ltb t (now (db s) + 3600)
          then Some [("progress", JInt (Z.max 0 (Z.min 100 p))); ("message", JStr m);
                     ("updated_at", JTime (now (db s)))]
          else None).
Proof.
  unfold update_progress, setex, get_progress, json_get.
  cbv [mbind SM_bind sget smodify mret SM_ret]. cbn.
  split; [reflexivity|]. split; [reflexivity|].
  rewrite lookup_insert_eq. reflexivity.
Qed.

Lemma task_lock_key_file_lock_key tid fid : task_lock_key tid <> file_lock_key fid.
Proof. unfold task_lock_key, file_lock_key. cbn. discriminate. Qed.

(** One [add_file_to_queue] as seen from [enqueue_files]. *)
Lemma add_file_to_queue_step s fid tid ft prio :
  let '(s', r) := add_file_to_queue fid tid ft prio s in
  (exists b, r = Ok b) /\ db s' = db s /\ broker_up s' = broker_up s /\
  map snd (jobs s') =
    map snd (jobs s) ++
    (if is_held (cache (db s)) (file_lock_key fid) (now (db s)) || negb (broker_up s)
     then [] else [ReviewFileJob fid tid ft]).
Proof.
  unfold add_file_to_queue, is_file_processing, delay, QueueService.set_file_status, setex.
  cbv [mbind SM_bind sget smodify mret SM_ret s_try_except sraise].
  destruct (is_held (cache (db s)) (file_lock_key fid) (now (db s))); cbn [orb].
  { rewrite app_nil_r. repeat split; eauto. }
  destruct (broker_up s) eqn:Hup; cbn [negb].
  - cbn. rewrite Hup, List.map_app. repeat split; eauto.
  - rewrite app_nil_r. repeat split; eauto.
Qed.

Lemma enqueue_files_spec tid fs s :
  let '(s', r) := ReviewWorkerTask.enqueue_files tid fs s in
  r = Ok tt /\ db s' = db s /\ broker_up s' = broker_up s /\
  map snd (jobs s') =
    map snd (jobs s) ++
    (if broker_up s
     then map (fun f => ReviewFileJob (file_id f) tid
                          (ReviewWorkerTask.file_type_value (file_type f)))
              (List.filter (fun f => negb (is_held (cache (db s)) (file_lock_key (file_id f))
                                             (now (db s)))) fs)
     else []).
Proof.
  revert s. induction fs as [|f fs IH]; intros s.
  - cbn. destruct (broker_up s); rewrite ?app_nil_r; repeat split.
  - cbn [ReviewWorkerTask.enqueue_files]. unfold mbind at 1, SM_bind at 1.
    pose proof (add_file_to_queue_step s (file_id f) tid
                  (ReviewWorkerTask.file_type_value (file_type f)) 0) as Hstep.
    destruct (add_file_to_queue _ _ _ _ s) as [s1 r1].
    destruct Hstep as [[b ->] [Hdb [Hup Hjobs]]].
    specialize (IH s1). destruct (ReviewWorkerTask.enqueue_files tid fs s1) as [s2 r2].
    destruct IH as (-> & Hdb2 & Hup2 & Hjobs2).
    split; [reflexivity|]. split; [congruence|]. split; [congruence|].
    rewrite Hjobs2, Hjobs, Hup, Hdb, <- app_assoc. f_equal.
    destruct (broker_up s); cbn -[is_held];
      destruct (is_held (cache (db s)) (file_lock_key (file_id f)) (now (db s))); reflexivity.
Qed.

(** The task lock around a step that keeps the lease store and the clock,
    when the lock is free: the step runs with the lock set, and the lock key
    is removed afterwards. *)
Lemma with_task_lock_free {A} tid token (body : SM A) h s s1 x :
  redis_get (cache (db s)) (task_lock_key tid) (now (db s)) = None ->
  body (set_db (set_cache (<[task_lock_key tid := (token, now (db s) + task_lock_timeout)]>
                             (cache (db s))) (db s)) s) = (s1, Ok x) ->
  cache (db s1) = <[task_lock_key tid := (token, now (db s) + task_lock_timeout)]> (cache (db s)) ->
  now (db s1) = now (db s) ->
  s_try_except (ReviewWorkerTask.with_task_lock tid token body) h s
    = (set_db (set_cache (delete (task_lock_key tid) (cache (db s))) (db s1)) s1, Ok x).
Proof.
  intros Hlock Hbody Hc Hn.
  unfold ReviewWorkerTask.with_task_lock, s_try_except.
  cbv [mbind SM_bind sget smodify mret SM_ret]. cbv zeta.
  unfold redis_set_nx_ex at 1. rewrite Hlock. cbn [negb fst snd].
  rewrite Hbody. unfold release_script. rewrite Hc, Hn.
  rewrite (redis_get_live _ _ token (now (db s) + task_lock_timeout));
    [| apply lookup_insert_eq | unfold task_lock_timeout; lia].
  rewrite String.eqb_refl, delete_insert_eq. reflexivity.
Qed.

(** X17 ([process_review_task], [task_lock]): when another worker holds a
    live lease on the task, the run changes nothing and returns the skip
    for a task being processed by another worker. *)
Theorem process_review_task_busy s tid token v :
  redis_get (cache (db s)) (task_lock_key tid) (now (db s)) = Some v ->
  ReviewWorkerTask.process_review_task tid token s
    = (s, Ok (ReviewWorkerTask.TSkipped "task is being processed by another worker")).
Proof.
  intros Hlock. unfold ReviewWorkerTask.process_review_task, ReviewWorkerTask.with_task_lock,
    s_try_except.
  cbv [mbind SM_bind sget smodify mret SM_ret sraise]. cbv zeta.
  unfold redis_set_nx_ex at 1. rewrite Hlock. reflexivity.
Qed.

(** A pending task with two pending files; another worker holds the lock
    of file "c". *)
Definition queue_two_pending : Sys :=
  mkSys (mkWorld [task_t TaskStatus.PENDING 2 0]
                 [file_in "a" FileStatus.PENDING; file_in "c" FileStatus.PENDING] []
                 (<[file_lock_key "c" := ("other", 5000)]> ∅) 100)
        ∅ [] [] true.

Lemma process_review_task_busy_witness :
  let s := set_db (set_cache (<[task_lock_key "t" := ("other", 5000)]> ∅) (db queue_two_pending))
             queue_two_pending in
  redis_get (cache (db s)) (task_lock_key "t") (now (db s)) = Some "other" /\
  ReviewWorkerTask.process_review_task "t" "tok" s
    = (s, Ok (ReviewWorkerTask.TSkipped "task is being processed by another worker")).
Proof.
  cbv zeta. split; [reflexivity|]. apply (process_review_task_busy _ _ _ "other").
  reflexivity.
Defined.

(** X18 ([process_review_task], [enqueue], [add_file_to_queue],
    [update_progress]): with the task lock free, a pending or processing
    task that has pending files gets one [process_review_file] message per
    pending file whose own lock is not live (none if the broker refuses),
    in the order of the files; the run returns "processing" with the number
    of pending files, records progress 10 for the task, changes no row, and
    leaves the lease store as it was, without the task's lock key. *)
Theorem process_review_task_enqueues s tid token t0 :
  redis_get (cache (db s)) (task_lock_key tid) (now (db s)) = None ->
  task_row (db s) tid = Some t0 ->
  task_status t0 ∈ [TaskStatus.PENDING; TaskStatus.PROCESSING] ->
  let pending := List.filter (fun f => String.eqb (file_task_id f) tid &&
                                       bool_decide (file_status f = FileStatus.PENDING))
                             (files (db s)) in
  pending <> [] ->
  let '(s', r) := ReviewWorkerTask.process_review_task tid token s in
  r = Ok (ReviewWorkerTask.TProcessing (length pending)) /\
  tasks (db s') = tasks (db s) /\ files (db s') = files (db s) /\
  results (db s') = results (db s) /\ now (db s') = now (db s) /\
  cache (db s') = delete (task_lock_key tid) (cache (db s)) /\
  map snd (jobs s') =
    map snd (jobs s) ++
    (if broker_up s
     then map (fun f => ReviewFileJob (file_id f) tid
                          (ReviewWorkerTask.file_type_value (file_type f)))
              (List.filter (fun f => negb (is_held (cache (db s)) (file_lock_key (file_id f))
                                             (now (db s)))) pending)
     else []) /\
  exists d, snd (get_progress tid s') = Ok (Some d) /\ dict_get d "progress" = Some (JInt 10).
Proof.
  intros Hlock Hrow Hst pending Hne.
  set (s0 := set_db (set_cache (<[task_lock_key tid := (token, now (db s) + task_lock_timeout)]>
                                  (cache (db s))) (db s)) s).
  assert (Hrow0 : task_row (db s0) tid = Some t0) by exact Hrow.
  assert (Hfiles : TaskService.get_task_files tid (Some FileStatus.PENDING) (db s0)
                   = (db s0, Ok pending)).
  { unfold TaskService.get_task_files. rewrite (bind_ok _ _ _ _ _ (get_task_ok _ _ _ Hrow0)).
    reflexivity. }
  pose proof (enqueue_files_spec tid pending s0) as Henq.
  destruct (ReviewWorkerTask.enqueue_files tid pending s0) as [s2 r2] eqn:Es2.
  destruct Henq as (-> & Hdb2 & Hup2 & Hjobs2).
  set (msg := "已将" +:+ pretty (N.of_nat (length pending)) +:+ "个文件加入处理队列").
  set (s3 := fst (update_progress tid 10 msg s2)).
  assert (Hbody : (task ← lift (TaskService.get_task_by_id tid);
       if bool_decide (task_status task ∉ [TaskStatus.PENDING; TaskStatus.PROCESSING])
       then mret (ReviewWorkerTask.TSkipped "task status")
       else
         fs ← lift (TaskService.get_task_files tid (Some FileStatus.PENDING));
         match fs with
         | [] =>
             lift (TaskService.complete_task tid true (Some "没有待处理的文件")) ;;
             mret (ReviewWorkerTask.TCompleted "没有待处理的文件")
         | _ =>
             ReviewWorkerTask.enqueue_files tid fs ;;
             update_progress tid 10 ("已将" +:+ pretty (N.of_nat (length fs)) +:+ "个文件加入处理队列") ;;
             mret (ReviewWorkerTask.TProcessing (length fs))
         end) s0 = (s3, Ok (ReviewWorkerTask.TProcessing (length pending)))).
  { unfold mbind at 1, SM_bind at 1, lift at 1.
    rewrite (get_task_ok _ _ _ Hrow0). cbv beta iota.
    rewrite (bool_decide_eq_false_2 _ (fun H => H Hst)).
    unfold mbind at 1, SM_bind at 1, lift at 1.
    assert (Hs0 : set_db (db s0) s0 = s0) by reflexivity. rewrite Hs0. rewrite Hfiles. cbv beta iota.
    clearbody pending. destruct pending as [|f fs]; [contradiction|].
    rewrite ?Hs0. unfold mbind at 1, SM_bind at 1. rewrite Es2. reflexivity. }
  unfold ReviewWorkerTask.process_review_task.
  rewrite (with_task_lock_free tid token _ _ s s3 _ Hlock Hbody).
  - cbn. split; [reflexivity|].
    unfold s3, update_progress, setex. cbv [mbind SM_bind sget smodify mret SM_ret]. cbn.
    rewrite Hdb2. cbn.
    do 5 (split; [reflexivity|]). split.
    { rewrite Hjobs2. unfold s0. cbn. f_equal. destruct (broker_up s); [|reflexivity].
      f_equal. apply List.filter_ext. intros f. f_equal.
      unfold is_held, redis_get. rewrite lookup_insert_ne; [reflexivity|].
      apply task_lock_key_file_lock_key. }
    unfold get_progress, json_get. cbv [mbind SM_bind sget mret SM_ret]. cbn.
    rewrite lookup_insert_eq.
    rewrite (proj2 (Z.ltb_lt (now (db s)) (now (db s) + 3600)) ltac:(lia)).
    eexists. split; reflexivity.
  - unfold s3, update_progress, setex. cbv [mbind SM_bind sget smodify mret SM_ret]. cbn.
    rewrite Hdb2. reflexivity.
  - unfold s3, update_progress, setex. cbv [mbind SM_bind sget smodify mret SM_ret]. cbn.
    rewrite Hdb2. reflexivity.
Qed.

Lemma process_review_task_enqueues_witness :
  let s := queue_two_pending in let tid := "t" in let token := "tok" in
  let t0 := task_t TaskStatus.PENDING 2 0 in
  redis_get (cache (db s)) (task_lock_key tid) (now (db s)) = None /\
  task_row (db s) tid = Some t0 /\
  (task_status t0 ∈ [TaskStatus.PENDING; TaskStatus.PROCESSING]) /\
  let pending := List.filter (fun f => String.eqb (file_task_id f) tid &&
                                       bool_decide (file_status f = FileStatus.PENDING))
                             (files (db s)) in
  (pending <> [] /\
  let '(s', r) := ReviewWorkerTask.process_review_task tid token s in
  r = Ok (ReviewWorkerTask.TProcessing (length pending)) /\
  tasks (db s') = tasks (db s) /\ files (db s') = files (db s) /\
  results (db s') = results (db s) /\ now (db s') = now (db s) /\
  cache (db s') = delete (task_lock_key tid) (cache (db s)) /\
  map snd (jobs s') =
    map snd (jobs s) ++
    (if broker_up s
     then map (fun f => ReviewFileJob (file_id f) tid
                          (ReviewWorkerTask.file_type_value (file_type f)))
              (List.filter (fun f => negb (is_held (cache (db s)) (file_lock_key (file_id f))
                                             (now (db s)))) pending)
     else []) /\
  exists d, snd (get_progress tid s') = Ok (Some d) /\ dict_get d "progress" = Some (JInt 10)).
Proof.
  intros s tid token t0.
  assert (H1 : redis_get (cache (db s)) (task_lock_key tid) (now (db s)) = None) by reflexivity.
  assert (H2 : task_row (db s) tid = Some t0) by reflexivity.
  assert (H3 : task_status t0 ∈ [TaskStatus.PENDING; TaskStatus.PROCESSING])
    by (apply (bool_decide_unpack _); vm_compute; exact I).
  split; [exact H1|]. split; [exact H2|]. split; [exact H3|].
  intros pending.
  assert (H4 : pending <> []) by (intros Heq; vm_compute in Heq; discriminate Heq).
  split; [exact H4|].
  exact (process_review_task_enqueues s tid token t0 H1 H2 H3 H4).
Defined.

(** X19 ([process_review_task], [complete_task]): with the task lock free,
    a pending or processing task without pending files is completed: the
    run returns "completed", the task row becomes COMPLETED with the
    completion time set and its error message unchanged (the message passed
    along with [success=True] is not stored), no message is queued, the
    files and results stay, and the task lock key is removed. *)
Theorem process_review_task_nothing_pending s tid token t0 :
  redis_get (cache (db s)) (task_lock_key tid) (now (db s)) = None ->
  task_row (db s) tid = Some t0 ->
  task_status t0 ∈ [TaskStatus.PENDING; TaskStatus.PROCESSING] ->
  List.filter (fun f => String.eqb (file_task_id f) tid &&
                        bool_decide (file_status f = FileStatus.PENDING)) (files (db s)) = [] ->
  let '(s', r) := ReviewWorkerTask.process_review_task tid token s in
  r = Ok (ReviewWorkerTask.TCompleted "没有待处理的文件") /\
  (exists t', task_row (db s') tid = Some t' /\
     task_status t' = TaskStatus.COMPLETED /\
     task_error_message t' = task_error_message t0 /\
     task_completed_at t' = Some (now (db s))) /\
  files (db s') = files (db s) /\ results (db s') = results (db s) /\
  jobs s' = jobs s /\ json_store s' = json_store s /\
  cache (db s') = delete (task_lock_key tid) (cache (db s)).
Proof.
  intros Hlock Hrow Hst Hnone.
  set (s0 := set_db (set_cache (<[task_lock_key tid := (token, now (db s) + task_lock_timeout)]>
                                  (cache (db s))) (db s)) s).
  assert (Hrow0 : task_row (db s0) tid = Some t0) by exact Hrow.
  assert (Hfiles : TaskService.get_task_files tid (Some FileStatus.PENDING) (db s0)
                   = (db s0, Ok [])).
  { unfold TaskService.get_task_files. rewrite (bind_ok _ _ _ _ _ (get_task_ok _ _ _ Hrow0)).
    cbv [mbind M_bind get mret M_ret]. cbn. f_equal. f_equal. exact Hnone. }
  set (row := complete_row (db s0) tid true (Some "没有待处理的文件") t0).
  set (s1 := set_db (fst (put_task row (db s0))) s0).
  assert (Hbody : (task ← lift (TaskService.get_task_by_id tid);
       if bool_decide (task_status task ∉ [TaskStatus.PENDING; TaskStatus.PROCESSING])
       then mret (ReviewWorkerTask.TSkipped "task status")
       else
         fs ← lift (TaskService.get_task_files tid (Some FileStatus.PENDING));
         match fs with
         | [] =>
             lift (TaskService.complete_task tid true (Some "没有待处理的文件")) ;;
             mret (ReviewWorkerTask.TCompleted "没有待处理的文件")
         | _ =>
             ReviewWorkerTask.enqueue_files tid fs ;;
             update_progress tid 10 ("已将" +:+ pretty (N.of_nat (length fs)) +:+ "个文件加入处理队列") ;;
             mret (ReviewWorkerTask.TProcessing (length fs))
         end) s0 = (s1, Ok (ReviewWorkerTask.TCompleted "没有待处理的文件"))).
  { unfold mbind at 1, SM_bind at 1, lift at 1.
    rewrite (get_task_ok _ _ _ Hrow0). cbv beta iota.
    rewrite (bool_decide_eq_false_2 _ (fun H => H Hst)).
    unfold mbind at 1, SM_bind at 1, lift at 1.
    assert (Hs0 : set_db (db s0) s0 = s0) by reflexivity. rewrite Hs0. rewrite Hfiles.
    cbv beta iota. rewrite ?Hs0.
    unfold mbind at 1, SM_bind at 1, lift at 1.
    rewrite (complete_task_ok _ _ _ _ _ Hrow0). reflexivity. }
  unfold ReviewWorkerTask.process_review_task.
  rewrite (with_task_lock_free tid token _ _ s s1 _ Hlock Hbody); [| reflexivity | reflexivity].
  split; [reflexivity|].
  split; [|repeat split].
  exists row. split.
  - unfold task_row. cbn.
    apply (task_row_put (db s0) row tid t0 Hrow0).
    unfold row, complete_row, ReviewTaskM.update_progress.
    destruct (Z.ltb 0 _); exact (task_row_id _ _ _ Hrow0).
  - unfold row, complete_row, ReviewTaskM.update_progress.
    destruct (Z.ltb 0 _); repeat split.
Qed.

Lemma process_review_task_nothing_pending_witness :
  let s := mkSys three_files_done ∅ [] [] true in let tid := "t" in let token := "tok" in
  let t0 := task_t TaskStatus.PROCESSING 3 0 in
  (redis_get (cache (db s)) (task_lock_key tid) (now (db s)) = None) /\
  (task_row (db s) tid = Some t0) /\
  (task_status t0 ∈ [TaskStatus.PENDING; TaskStatus.PROCESSING]) /\
  (List.filter (fun f => String.eqb (file_task_id f) tid &&
                        bool_decide (file_status f = FileStatus.PENDING)) (files (db s)) = []) /\
  (let '(s', r) := ReviewWorkerTask.process_review_task tid token s in
  r = Ok (ReviewWorkerTask.TCompleted "没有待处理的文件") /\
  (exists t', task_row (db s') tid = Some t' /\
     task_status t' = TaskStatus.COMPLETED /\
     task_error_message t' = task_error_message t0 /\
     task_completed_at t' = Some (now (db s))) /\
  files (db s') = files (db s) /\ results (db s') = results (db s) /\
  jobs s' = jobs s /\ json_store s' = json_store s /\
  cache (db s') = delete (task_lock_key tid) (cache (db s))).
Proof.
  intros s tid token t0.
  assert (H1 : redis_get (cache (db s)) (task_lock_key tid) (now (db s)) = None)
    by reflexivity.
  assert (H2 : task_row (db s) tid = Some t0)
    by reflexivity.
  assert (H3 : task_status t0 ∈ [TaskStatus.PENDING; TaskStatus.PROCESSING])
    by (apply (bool_decide_unpack _); vm_compute; exact I).
  assert (H4 : List.filter (fun f => String.eqb (file_task_id f) tid &&
                        bool_decide (file_status f = FileStatus.PENDING)) (files (db s)) = [])
    by reflexivity.
  split; [exact H1|]. split; [exact H2|]. split; [exact H3|]. split; [exact H4|].
  exact (process_review_task_nothing_pending s tid token t0 H1 H2 H3 H4).
Defined.

Lemma add_task_to_queue_step s tid prio :
  let '(s', r) := add_task_to_queue tid prio s in
  if is_held (cache (db s)) (task_lock_key tid) (now (db s)) || negb (broker_up s)
  then s' = s /\ r = Ok false
  else r = Ok true /\ db s' = db s /\ broker_up s' = broker_up s /\
       map snd (jobs s') = map snd (jobs s) ++ [ReviewTaskJob tid].
Proof.
  unfold add_task_to_queue, is_task_processing, delay, QueueService.set_task_status, setex.
  cbv [mbind SM_bind sget smodify mret SM_ret s_try_except sraise].
  destruct (is_held (cache (db s)) (task_lock_key tid) (now (db s))); cbn [orb].
  { split; reflexivity. }
  destruct (broker_up s) eqn:Hup; cbn [negb]; [|split; reflexivity].
  cbn. rewrite Hup, List.map_app. repeat split.
Qed.

(** X22 ([add_task_to_queue], [is_task_processing]): the duplicate check
    only looks at the task lock, which the worker takes when it starts; so
    two submissions of the same task before a worker picks it up both
    return [True] and queue two [process_review_task] messages. *)
Theorem add_task_to_queue_twice s tid p1 p2 :
  is_held (cache (db s)) (task_lock_key tid) (now (db s)) = false ->
  broker_up s = true ->
  let '(s1, r1) := add_task_to_queue tid p1 s in
  let '(s2, r2) := add_task_to_queue tid p2 s1 in
  r1 = Ok true /\ r2 = Ok true /\
  map snd (jobs s2) = map snd (jobs s) ++ [ReviewTaskJob tid; ReviewTaskJob tid].
Proof.
  intros Hfree Hup.
  pose proof (add_task_to_queue_step s tid p1) as H1.
  destruct (add_task_to_queue tid p1 s) as [s1 r1].
  rewrite Hfree, Hup in H1. cbn [orb negb] in H1.
  destruct H1 as (-> & Hdb1 & Hup1 & Hj1).
  pose proof (add_task_to_queue_step s1 tid p2) as H2.
  destruct (add_task_to_queue tid p2 s1) as [s2 r2].
  rewrite Hdb1, Hfree, Hup1 in H2. cbn [orb negb] in H2.
  destruct H2 as (-> & _ & _ & Hj2).
  split; [reflexivity|]. split; [reflexivity|].
  rewrite Hj2, Hj1, <- app_assoc. reflexivity.
Qed.

Lemma add_task_to_queue_twice_witness :
  is_held (cache (db queue_sys)) (task_lock_key "t") (now (db queue_sys)) = false /\
  broker_up queue_sys = true /\
  let '(s1, r1) := add_task_to_queue "t" 0 queue_sys in
  let '(s2, r2) := add_task_to_queue "t" 5 s1 in
  r1 = Ok true /\ r2 = Ok true /\
  map snd (jobs s2) = map snd (jobs queue_sys) ++ [ReviewTaskJob "t"; ReviewTaskJob "t"].
Proof.
  split; [reflexivity|]. split; [reflexivity|].
  exact (add_task_to_queue_twice queue_sys "t" 0 5 eq_refl eq_refl).
Defined.

Lemma with_task_lock_free_raise {A} tid token (body : SM A) h s s1 e :
  redis_get (cache (db s)) (task_lock_key tid) (now (db s)) = None ->
  body (set_db (set_cache (<[task_lock_key tid := (token, now (db s) + task_lock_timeout)]>
                             (cache (db s))) (db s)) s) = (s1, Raise e) ->
  cache (db s1) = <[task_lock_key tid := (token, now (db s) + task_lock_timeout)]> (cache (db s)) ->
  now (db s1) = now (db s) ->
  s_try_except (ReviewWorkerTask.with_task_lock tid token body) h s
    = h e (set_db (set_cache (delete (task_lock_key tid) (cache (db s))) (db s1)) s1).
Proof.
  intros Hlock Hbody Hc Hn.
  unfold ReviewWorkerTask.with_task_lock, s_try_except.
  cbv [mbind SM_bind sget smodify mret SM_ret sraise]. cbv zeta.
  unfold redis_set_nx_ex at 1. rewrite Hlock. cbn [negb fst snd].
  rewrite Hbody. unfold release_script. rewrite Hc, Hn.
  rewrite (redis_get_live _ _ token (now (db s) + task_lock_timeout));
    [| apply lookup_insert_eq | unfold task_lock_timeout; lia].
  rewrite String.eqb_refl, delete_insert_eq. reflexivity.
Qed.

(** X24 ([process_review_task], [task_lock]): for a task id with no row
    and a free task lock, the run returns a [TError] result (with some
    error message) and changes nothing but removing the task lock key: no
    row is written, no file is queued, no progress or status record is
    written, since the handler's second lookup fails quietly too. *)
Theorem process_review_task_missing s tid token :
  redis_get (cache (db s)) (task_lock_key tid) (now (db s)) = None ->
  task_row (db s) tid = None ->
  exists msg, ReviewWorkerTask.process_review_task tid token s
    = (set_db (set_cache (delete (task_lock_key tid) (cache (db s))) (db s)) s,
       Ok (ReviewWorkerTask.TError msg)).
Proof.
  intros Hlock Hnone.
  set (s0 := set_db (set_cache (<[task_lock_key tid := (token, now (db s) + task_lock_timeout)]>
                             (cache (db s))) (db s)) s).
  unfold ReviewWorkerTask.process_review_task.
  rewrite (with_task_lock_free_raise tid token _ _ s s0
             (NotFoundError ("task not found: " +:+ tid)) Hlock); [| | reflexivity | reflexivity].
  - cbv [s_try_except mbind SM_bind lift mret SM_ret].
    rewrite get_task_none by exact Hnone. eexists. reflexivity.
  - cbv [mbind SM_bind lift]. rewrite get_task_none by exact Hnone. reflexivity.
Qed.

Lemma process_review_task_missing_witness :
  let s := queue_sys in
  (redis_get (cache (db s)) (task_lock_key "zz") (now (db s)) = None) /\
  (task_row (db s) "zz" = None) /\
  exists msg, ReviewWorkerTask.process_review_task "zz" "tok" s
    = (set_db (set_cache (delete (task_lock_key "zz") (cache (db s))) (db s)) s,
       Ok (ReviewWorkerTask.TError msg)).
Proof.
  intros s.
  assert (H1 : redis_get (cache (db s)) (task_lock_key "zz") (now (db s)) = None) by reflexivity.
  assert (H2 : task_row (db s) "zz" = None) by reflexivity.
  split; [exact H1|]. split; [exact H2|].
  exact (process_review_task_missing s "zz" "tok" H1 H2).
Defined.

(** X25 ([process_review_task]): for a task that exists but is neither
    [PENDING] nor [PROCESSING], with a free task lock, the run returns
    the skip for the task status and changes nothing but removing the
    task lock key. *)
Theorem process_review_task_inactive s tid token t0 :
  redis_get (cache (db s)) (task_lock_key tid) (now (db s)) = None ->
  task_row (db s) tid = Some t0 ->
  (task_status t0 ∉ [TaskStatus.PENDING; TaskStatus.PROCESSING]) ->
  ReviewWorkerTask.process_review_task tid token s
    = (set_db (set_cache (delete (task_lock_key tid) (cache (db s))) (db s)) s,
       Ok (ReviewWorkerTask.TSkipped "task status")).
Proof.
  intros Hlock Hrow Hst.
  set (s0 := set_db (set_cache (<[task_lock_key tid := (token, now (db s) + task_lock_timeout)]>
                             (cache (db s))) (db s)) s).
  unfold ReviewWorkerTask.process_review_task.
  rewrite (with_task_lock_free tid token _ _ s s0 (ReviewWorkerTask.TSkipped "task status") Hlock);
    [reflexivity | | reflexivity | reflexivity].
  cbv [mbind SM_bind lift]. rewrite (get_task_ok _ tid t0) by exact Hrow.
  cbv beta iota. rewrite (bool_decide_eq_true_2 _ Hst). reflexivity.
Qed.

Lemma process_review_task_inactive_witness :
  let s := mkSys reopened ∅ [] [] true in let t0 := task_t TaskStatus.COMPLETED 2 2 in
  (redis_get (cache (db s)) (task_lock_key "t") (now (db s)) = None) /\
  (task_row (db s) "t" = Some t0) /\
  (task_status t0 ∉ [TaskStatus.PENDING; TaskStatus.PROCESSING]) /\
  ReviewWorkerTask.process_review_task "t" "tok" s
    = (set_db (set_cache (delete (task_lock_key "t") (cache (db s))) (db s)) s,
       Ok (ReviewWorkerTask.TSkipped "task status")).
Proof.
  intros s t0.
  assert (H1 : redis_get (cache (db s)) (task_lock_key "t") (now (db s)) = None) by reflexivity.
  assert (H2 : task_row (db s) "t" = Some t0) by reflexivity.
  assert (H3 : task_status t0 ∉ [TaskStatus.PENDING; TaskStatus.PROCESSING])
    by (apply (bool_decide_unpack _); vm_compute; exact I).
  split; [exact H1|]. split; [exact H2|]. split; [exact H3|].
  exact (process_review_task_inactive s "t" "tok" t0 H1 H2 H3).
Defined.

End QueueExtras.
